(** * darts/models/rnn_model.py: the recurrent forecasting model

    A shallow embedding of [_RNNModule] and [RNNModel].  Python objects
    are records, Python exceptions are the [Raise] case of [result], and
    torch tensors are strided views into storages kept in a [world], so
    that aliasing between a tensor and its slices is visible.

    PyTorch itself, the [TorchForecastingModel] base class,
    [ShiftedDataset], [raise_if_not] and user-written modules are not part
    of this file of the repository.  Their types are the fields of
    [Externals]; the numbers torch computes and the arguments it refuses
    are the fields of [Kernels], while the shapes it produces are written
    out; the operations of darts and of user code are the fields of
    [Backend].

    Left out: logging, the [random_method] decorator around
    [RNNModel.__init__], and default values of keyword parameters, which
    a caller fills in. *)

From stdpp Require Import gmap strings list fin_maps.

Local Open Scope Z_scope.

(** ** Exceptions and fallible results *)

Inductive exn : Type :=
  | ValueError (msg : string)
  | TypeError (msg : string)
  | AttributeError (msg : string)
  | RuntimeError (msg : string).

Inductive result (A : Type) : Type :=
  | Ok (a : A)
  | Raise (e : exn).
Arguments Ok {A} a.
Arguments Raise {A} e.

#[global] Instance result_ret : MRet result := λ A a, Ok a.
#[global] Instance result_bind : MBind result :=
  λ A B f m, match m with Ok a => f a | Raise e => Raise e end.

Definition raises {A} (r : result A) : Prop := ∃ e, r = Raise e.

(** ** Types that come from outside this file *)

Class Externals : Type := {
  (** floating-point scalars: tensor elements, the dropout rate, a loss *)
  float : Type;
  (** hidden state of a recurrent module (a tensor, or a pair for LSTM) *)
  hidden_state : Type;
  (** state of torch's global random number generator *)
  generator : Type;
  (** [darts.timeseries.TimeSeries] *)
  TimeSeries : Type;
  (** instances of user-written [nn.Module] subclasses *)
  user_module : Type;
  (** the attributes that [TorchForecastingModel.__init__] sets up *)
  base_state : Type;
  (** instances of [darts.utils.data.ShiftedDataset] *)
  dataset : Type;
}.

(** ** Tensors of rank three as strided views

    Every tensor this file handles has the layout
    [(batch_size, input_length, features)] its docstrings give. *)

Definition shape3 : Type := nat * nat * nat.

Record tensor : Type := Tensor {
  t_storage : nat;       (* which storage the view reads *)
  t_offset : nat;        (* index of element (0,0,0) in the storage *)
  t_size : shape3;
  t_stride : shape3;
}.

#[global] Instance shape3_eq_dec : EqDecision shape3 :=
  prod_eq_dec (A := nat * nat) (B := nat).

Definition contiguous_stride (sz : shape3) : shape3 :=
  let '(_, l, n) := sz in ((l * n)%nat, n, 1%nat).

Definition contiguous (loc : nat) (sz : shape3) : tensor :=
  Tensor loc 0 sz (contiguous_stride sz).

Definition is_contiguous (t : tensor) : bool :=
  bool_decide (t_stride t = contiguous_stride (t_size t)).

Definition numel (t : tensor) : nat :=
  let '(b, l, n) := t_size t in (b * l * n)%nat.

Definition flat_index (t : tensor) (i j k : nat) : nat :=
  let '(s0, s1, s2) := t_stride t in
  (t_offset t + i * s0 + j * s1 + k * s2)%nat.

(** [x.size(0)] *)
Definition size0 (t : tensor) : Z :=
  let '(b, _, _) := t_size t in Z.of_nat b.

(** Python's clamping of a slice bound [i] against a dimension of size [n]. *)
Definition slice_bound (n : nat) (i : Z) : nat :=
  if bool_decide (i < 0) then Z.to_nat (Z.max (i + Z.of_nat n) 0)
  else Z.to_nat (Z.min i (Z.of_nat n)).

(** [t[:, :, :stop]]: basic slicing returns a view on the same storage. *)
Definition slice_last_to (t : tensor) (stop : Z) : tensor :=
  let '(b, l, n) := t_size t in
  Tensor (t_storage t) (t_offset t) (b, l, slice_bound n stop) (t_stride t).

(** [t[:, :, start:]] *)
Definition slice_last_from (t : tensor) (start : Z) : tensor :=
  let '(b, l, n) := t_size t in
  let '(_, _, s2) := t_stride t in
  let c := slice_bound n start in
  Tensor (t_storage t) (t_offset t + c * s2)%nat (b, l, (n - c)%nat) (t_stride t).

(** Nested-list view of the elements of a rank three tensor. *)
Abbreviation data3 := (list (list (list float))).

Section World.
Context `{Externals}.

Record world : Type := World {
  storages : gmap nat (list float);
  rng : generator;
}.

(** Stateful, fallible torch computations. *)
Definition Torch (A : Type) : Type := world → result (A * world).

#[global] Instance torch_ret : MRet Torch := λ A a w, Ok (a, w).
#[global] Instance torch_bind : MBind Torch :=
  λ A B f m w, match m w with Ok (a, w') => f a w' | Raise e => Raise e end.

Definition throw {A} (e : exn) : Torch A := λ _, Raise e.

(** The elements a tensor denotes in a world, [None] when the view
    reaches outside its storage. *)
Definition contents (w : world) (t : tensor) : option data3 :=
  s ← storages w !! t_storage t;
  let '(b, l, n) := t_size t in
  mapM (λ i, mapM (λ j, mapM (λ k, s !! flat_index t i j k) (seq 0 n)) (seq 0 l))
       (seq 0 b).

Definition read (t : tensor) : Torch data3 := λ w,
  match contents w t with
  | Some d => Ok (d, w)
  | None => Raise (RuntimeError "tensor does not denote valid memory")
  end.

(** A new contiguous tensor holding [d], in a storage of its own. *)
Definition alloc (sz : shape3) (d : data3) : Torch tensor := λ w,
  let loc := fresh (dom (storages w)) in
  Ok (contiguous loc sz,
      World (<[loc := mjoin (mjoin d)]> (storages w)) (rng w)).

(** An elementwise operation. *)
Definition map3 (f : float → float) (d : data3) : data3 :=
  fmap (M:=list) (fmap (M:=list) (fmap f)) d.

(** An operation on every feature vector. *)
Definition map_rows (f : list float → list float) (d : data3) : data3 :=
  fmap (M:=list) (fmap f) d.

(** Data of the given extent in each of the three dimensions. *)
Definition has_shape (sz : shape3) (d : data3) : Prop :=
  let '(b, l, n) := sz in
  length d = b ∧
  Forall (λ m : list (list float),
            length m = l ∧ Forall (λ r : list float, length r = n) m) d.

(** Every storage of [w] is still there, unchanged, in [w']. *)
Definition storages_kept (w w' : world) : Prop :=
  ∀ loc s, storages w !! loc = Some s → storages w' !! loc = Some s.

(** [(b, l, n)]-shaped data given element by element. *)
Definition tabulate3 (sz : shape3) (f : nat → nat → nat → float) : data3 :=
  let '(b, l, n) := sz in
  (λ i, (λ j, f i j <$> seq 0 n) <$> seq 0 l) <$> seq 0 b.

(** [t.view(d0, -1, d2)]: the middle dimension is inferred from the
    number of elements; torch raises when it cannot be. *)
Definition view_infer (t : tensor) (d0 d2 : Z) : Torch tensor :=
  if bool_decide (d0 < 0 ∨ d2 < 0) then
    throw (RuntimeError "invalid shape dimension")
  else
    let known := (Z.to_nat d0 * Z.to_nat d2)%nat in
    if bool_decide (known = 0%nat) then
      throw (RuntimeError "the unspecified dimension size -1 is ambiguous")
    else if negb (bool_decide (numel t `mod` known = 0)%nat) then
      throw (RuntimeError "shape is invalid for input size")
    else if negb (is_contiguous t) then
      throw (RuntimeError "view size is not compatible with input size and stride")
    else
      mret (Tensor (t_storage t) (t_offset t)
                   (Z.to_nat d0, (numel t / known)%nat, Z.to_nat d2)
                   (contiguous_stride
                      (Z.to_nat d0, (numel t / known)%nat, Z.to_nat d2))).
End World.

(** Running a [Torch] computation by hand. *)
Ltac torch_unfold :=
  unfold mbind, torch_bind, mret, torch_ret, throw in *.

(** ** The part of [torch.nn] this file uses

    A torch module object is represented by the constructor call that
    made it; its weights stay inside the numeric kernels of [Kernels],
    and so does the validation torch makes of constructor and call
    arguments, as the exception it raises, if any. *)

Section TorchNN.
Context `{Externals}.

(** [getattr(nn, cls)(input_size, hidden_size, num_layers,
    batch_first=..., dropout=...)] for a recurrent class of [torch.nn]:
    the three positional arguments bind in this order for [nn.RNN],
    [nn.LSTM] and [nn.GRU]. *)
Record Recurrent : Type := {
  rnn_class : string;
  rnn_input_size : Z;
  rnn_hidden_size : Z;
  rnn_num_layers : Z;
  rnn_batch_first : bool;
  rnn_dropout : float;
}.

(** [nn.Linear(in_features, out_features)] *)
Record Linear : Type := {
  in_features : Z;
  out_features : Z;
}.

Class Kernels : Type := {
  (** the scalar function of [nn.Softplus()] *)
  softplus : float → float;
  (** element [(i, j, k)] of the output sequence of a recurrent module *)
  rnn_output :
    Recurrent → data3 → option hidden_state → nat → nat → nat → float;
  (** its final hidden state *)
  rnn_hidden : Recurrent → data3 → option hidden_state → hidden_state;
  (** component [k] of the affine image of one feature vector *)
  linear_output : Linear → list float → nat → float;
  (** what [getattr(nn, cls)(input_size, hidden_size, num_layers,
      batch_first=..., dropout=...)] raises: no such class, or
      arguments the class refuses *)
  recurrent_init_error : string → Z → Z → Z → bool → float → option exn;
  (** what [nn.Linear(in_features, out_features)] raises *)
  linear_init_error : Z → Z → option exn;
  (** what a recurrent module raises on an input of the right width,
      for instance on a hidden state of the wrong shape *)
  recurrent_call_error :
    Recurrent → data3 → option hidden_state → option exn;
  (** floating-point addition and multiplication *)
  fadd : float → float → float;
  fmul : float → float → float;
  (** the standard normal number the generator draws for element
      [(i, j, k)] of a new tensor, and the generator after drawing a
      tensor of the given size *)
  randn : generator → nat → nat → nat → float;
  rng_next : generator → shape3 → generator;
  (** what [torch.normal(mean, std)] raises on tensors of one shape, for
      instance on a negative standard deviation *)
  normal_error : data3 → data3 → option exn;
  (** [torch.normal(mean, std)] on tensors of different shapes, which
      torch broadcasts or refuses *)
  normal_unequal : tensor → tensor → Torch tensor;
}.

Context `{Kernels}.

Definition nn_recurrent (cls : string)
    (input_size hidden_size num_layers : Z) (batch_first : bool)
    (dropout : float) : result Recurrent :=
  match recurrent_init_error cls input_size hidden_size num_layers
          batch_first dropout with
  | Some e => Raise e
  | None => Ok {| rnn_class := cls;
                  rnn_input_size := input_size;
                  rnn_hidden_size := hidden_size;
                  rnn_num_layers := num_layers;
                  rnn_batch_first := batch_first;
                  rnn_dropout := dropout |}
  end.

Definition nn_Linear (in_features out_features : Z) : result Linear :=
  match linear_init_error in_features out_features with
  | Some e => Raise e
  | None => Ok {| in_features := in_features;
                  out_features := out_features |}
  end.

(** [nn.Softplus()(t)]: elementwise, out of place. *)
Definition Softplus (t : tensor) : Torch tensor :=
  d ← read t;
  alloc (t_size t) (map3 softplus d).

(** An operation on corresponding elements of two tensors' data. *)
Definition zip3 (f : float → float → float) (d1 d2 : data3) : data3 :=
  zip_with (zip_with (zip_with f)) d1 d2.

(** [torch.normal(mean, std)]: every element of the new tensor is drawn
    from the normal distribution of the given mean and standard
    deviation: torch draws a standard normal [z] for it, multiplies it
    by the standard deviation and adds the mean. *)
Definition torch_normal (mean std : tensor) : Torch tensor :=
  dm ← read mean;
  ds ← read std;
  if bool_decide (t_size mean = t_size std) then
    match normal_error dm ds with
    | Some e => throw e
    | None =>
        λ w, let z := tabulate3 (t_size mean) (randn (rng w)) in
             alloc (t_size mean) (zip3 fadd (zip3 fmul z ds) dm)
               (World (storages w) (rng_next (rng w) (t_size mean)))
    end
  else
    normal_unequal mean std.

(** [m(x)] and [m(x, h)] for a recurrent module: the output keeps the
    two leading dimensions of [x] and has [hidden_size] features. *)
Definition recurrent_call (m : Recurrent) (x : tensor)
    (h : option hidden_state) : Torch (tensor * hidden_state) :=
  d ← read x;
  let '(b, l, n) := t_size x in
  if bool_decide (Z.of_nat n = rnn_input_size m ∧ 0 ≤ rnn_hidden_size m) then
    match recurrent_call_error m d h with
    | Some e => throw e
    | None =>
        let sz := (b, l, Z.to_nat (rnn_hidden_size m)) in
        out ← alloc sz (tabulate3 sz (rnn_output m d h));
        mret (out, rnn_hidden m d h)
    end
  else
    throw (RuntimeError "input.size(-1) must be equal to input_size").

(** [m(x)] for a linear layer, applied to every feature vector. *)
Definition linear_call (m : Linear) (x : tensor) : Torch tensor :=
  d ← read x;
  let '(b, l, n) := t_size x in
  if bool_decide (Z.of_nat n = in_features m ∧ 0 ≤ out_features m) then
    let o := Z.to_nat (out_features m) in
    alloc (b, l, o) (map_rows (λ row, linear_output m row <$> seq 0 o) d)
  else
    throw (RuntimeError "mat1 and mat2 shapes cannot be multiplied").
End TorchNN.

(** ** class _RNNModule(nn.Module) *)

Module RNNModule.
Section RNNModule.
Context `{Kernels}.

Record _RNNModule : Type := {
  target_size : Z;
  name : string;
  is_probabilistic : bool;
  rnn : Recurrent;
  V : Linear;
}.

(** Keyword defaults ([target_size=1], [dropout=0.],
    [probabilistic=False]) are for the caller to fill in. *)
Definition __init__ (name : string) (input_size hidden_dim target_size : Z)
    (dropout : float) (probabilistic : bool) : result _RNNModule :=
  rnn ← nn_recurrent name input_size hidden_dim 1 true dropout;
  V ← nn_Linear hidden_dim (target_size + Z.b2z probabilistic * target_size);
  mret {| target_size := target_size;
          name := name;
          is_probabilistic := probabilistic;
          rnn := rnn;
          V := V |}.

Definition forward (self : _RNNModule) (x : tensor)
    (h : option hidden_state) : Torch (tensor * hidden_state) :=
  let batch_size := size0 x in
  '(out, last_hidden_state) ←
    match h with
    | None => recurrent_call (rnn self) x None
    | Some h => recurrent_call (rnn self) x (Some h)
    end;
  predictions ← linear_call (V self) out;
  predictions ←
    view_infer predictions batch_size
      (target_size self + Z.b2z (is_probabilistic self) * target_size self);
  mret (predictions, last_hidden_state).
End RNNModule.
End RNNModule.

(** ** Python values and the helpers of darts this file calls *)

Section Values.
Context `{Externals}.

(** Instances of [nn.Module]: the module of this file, or a user's own. *)
Inductive nn_module : Type :=
  | RNNModuleObj (m : RNNModule._RNNModule)
  | UserModule (u : user_module).

(** What a caller can pass for the [model] argument or in [**kwargs]. *)
Inductive value : Type :=
  | VNone
  | VBool (b : bool)
  | VInt (z : Z)
  | VFloat (x : float)
  | VStr (s : string)
  | VModule (m : nn_module)
  (** an object of any other class, with what its own [__eq__] answers
      when it is compared with a string *)
  | VObject (cls : string) (eq : string → result bool).

(** [isinstance(v, nn.Module)] *)
Definition isinstance_Module (v : value) : bool :=
  match v with
  | VModule _ => true
  | _ => false
  end.
End Values.

Definition dquote : string := String (Ascii.ascii_of_nat 34) EmptyString.
Definition newline : string := String (Ascii.ascii_of_nat 10) EmptyString.

Module ShiftedDataset.
Section ShiftedDataset.
Context `{Externals}.

(** The keyword arguments of a call [ShiftedDataset(...)]. *)
Record call : Type := {
  target_series : list TimeSeries;
  covariates : option (list TimeSeries);
  length : Z;
  shift_covariates : bool;
  shift : Z;
}.
End ShiftedDataset.
End ShiftedDataset.

(** ** class RNNModel(TorchForecastingModel) *)

Module RNNModel.
Section RNNModel.
Context `{Kernels}.

Record RNNModel : Type := {
  base : base_state;               (* what the base class keeps *)
  rnn_type_or_module : value;
  dropout : float;
  hidden_dim : Z;
  training_length : Z;
  is_recurrent : bool;
  is_probabilistic : bool;
}.

(** Operations of code that is not in this file. *)
Class Backend : Type := {
  (** [u.__class__.__name__], [u.target_size] and [u(x, h)] for a
      user-written module; the attribute may be missing *)
  user_class_name : user_module → string;
  user_target_size : user_module → option Z;
  user_forward :
    user_module → tensor → option hidden_state → Torch (tensor * hidden_state);
  (** what [u == s] answers for a string [s]: [False] unless the user's
      class defines [__eq__] *)
  user_eq : user_module → string → result bool;
  (** [nn.GaussianNLLLoss(reduction=r)(input, target, var)] *)
  GaussianNLLLoss : string → tensor → tensor → tensor → Torch float;
  (** [TorchForecastingModel.__init__] applied to the keyword arguments *)
  base_init : gmap string value → result base_state;
  (** the attribute [self.model], [None] until the base class builds it *)
  base_model : base_state → option nn_module;
  (** [TorchForecastingModel._compute_loss(self, output, target)] *)
  base_compute_loss : RNNModel → tensor → tensor → Torch float;
  (** [ShiftedDataset(...)] *)
  ShiftedDataset : ShiftedDataset.call → result dataset;
  (** [darts.logging.raise_if_not(condition, message, logger)] *)
  raise_if_not : bool → string → result unit;
}.

Context `{Backend}.

(** [v.__class__.__name__] *)
Definition class_name (v : value) : string :=
  match v with
  | VNone => "NoneType"
  | VBool _ => "bool"
  | VInt _ => "int"
  | VFloat _ => "float"
  | VStr _ => "str"
  | VModule (RNNModuleObj _) => "_RNNModule"
  | VModule (UserModule u) => user_class_name u
  | VObject cls _ => cls
  end.

(** [v == s] for a string [s]: strings are compared as strings, the
    other built-in values and [_RNNModule], which has no [__eq__] of its
    own, are never equal to a string, and any other object answers for
    itself. *)
Definition eq_str (v : value) (s : string) : result bool :=
  match v with
  | VStr s' => Ok (bool_decide (s' = s))
  | VModule (UserModule u) => user_eq u s
  | VObject _ eq => eq s
  | _ => Ok false
  end.

(** [v in [s1, s2, ...]]: the elements are compared in turn, up to the
    first one that is equal. *)
Fixpoint py_in (v : value) (l : list string) : result bool :=
  match l with
  | [] => Ok false
  | s :: l => b ← eq_str v s; if (b : bool) then Ok true else py_in v l
  end.

Definition invalid_model_message (model : value) : string :=
  class_name model +:+ " is not a valid RNN model." +:+ newline
    +:+ " Please specify " +:+ dquote +:+ "RNN" +:+ dquote +:+ ", "
    +:+ dquote +:+ "LSTM" +:+ dquote +:+ ", "
    +:+ dquote +:+ "GRU" +:+ dquote
    +:+ ", or give your own PyTorch nn.Module".


(** The body of [__init__]; [random_state] is consumed by the
    [random_method] decorator only. *)
Definition __init__ (model : value) (input_chunk_length hidden_dim : Z)
    (dropout : float) (training_length : Z) (probabilistic : bool)
    (random_state : value) (kwargs : gmap string value) : result RNNModel :=
  let kwargs := <["input_chunk_length" := VInt input_chunk_length]> kwargs in
  let kwargs := <["output_chunk_length" := VInt 1]> kwargs in
  b ← base_init kwargs;
  member ← py_in model ["RNN"; "LSTM"; "GRU"];
  (if negb (member : bool) then
     raise_if_not (isinstance_Module model) (invalid_model_message model)
   else mret ());;
  mret {| base := b;
          rnn_type_or_module := model;
          dropout := dropout;
          hidden_dim := hidden_dim;
          training_length := training_length;
          is_recurrent := true;
          is_probabilistic := probabilistic |}.

(** A value used where [_RNNModule] wants its [name : str]. *)
Definition as_name (v : value) : result string :=
  match v with
  | VStr s => Ok s
  | _ => Raise (TypeError "attribute name must be string")
  end.

Definition _create_model (self : RNNModel) (input_dim output_dim : Z)
    : result value :=
  member ← py_in (rnn_type_or_module self) ["RNN"; "LSTM"; "GRU"];
  if (member : bool) then
    name ← as_name (rnn_type_or_module self);
    model ← RNNModule.__init__ name input_dim (hidden_dim self) output_dim
               (dropout self) (is_probabilistic self);
    mret (VModule (RNNModuleObj model))
  else
    mret (rnn_type_or_module self).

Definition _build_train_dataset (self : RNNModel) (target : list TimeSeries)
    (covariates : option (list TimeSeries)) : result dataset :=
  ShiftedDataset
    {| ShiftedDataset.target_series := target;
       ShiftedDataset.covariates := covariates;
       ShiftedDataset.length := training_length self;
       ShiftedDataset.shift_covariates := true;
       ShiftedDataset.shift := 1 |}.

(** [m(x, h)] dispatches to the [forward] of the module's class. *)
Definition module_call (m : nn_module) (x : tensor)
    (h : option hidden_state) : Torch (tensor * hidden_state) :=
  match m with
  | RNNModuleObj r => RNNModule.forward r x h
  | UserModule u => user_forward u x h
  end.

(** [self.model(x, h)] *)
Definition model_call (self : RNNModel) (x : tensor)
    (h : option hidden_state) : Torch (tensor * hidden_state) :=
  match base_model (base self) with
  | Some m => module_call m x h
  | None => throw (TypeError "'NoneType' object is not callable")
  end.

(** [self.model.target_size] *)
Definition model_target_size (self : RNNModel) : Torch Z :=
  match base_model (base self) with
  | Some (RNNModuleObj r) => mret (RNNModule.target_size r)
  | Some (UserModule u) =>
      match user_target_size u with
      | Some z => mret z
      | None => throw (AttributeError "object has no attribute 'target_size'")
      end
  | None =>
      throw (AttributeError "'NoneType' object has no attribute 'target_size'")
  end.

Definition _produce_train_output (self : RNNModel) (data : tensor)
    : Torch tensor :=
  '(out, _) ← model_call self data None;
  mret out.

Definition _means_and_vars_from_output (self : RNNModel) (output : tensor)
    : Torch (tensor * tensor) :=
  let softplus_activation := Softplus in
  stop ← model_target_size self;
  let output_means := slice_last_to output stop in
  start ← model_target_size self;
  output_vars ← softplus_activation (slice_last_from output start);
  mret (output_means, output_vars).

Definition _compute_loss (self : RNNModel) (output target : tensor)
    : Torch float :=
  if is_probabilistic self then
    let gaussian_loss := GaussianNLLLoss "sum" in
    '(output_means, output_vars) ← _means_and_vars_from_output self output;
    gaussian_loss output_means target output_vars
  else
    base_compute_loss self output target.

Definition _produce_predict_output (self : RNNModel) (input : tensor)
    (last_hidden_state : option hidden_state)
    : Torch (tensor * hidden_state) :=
  if is_probabilistic self then
    '(output, hidden) ← model_call self input last_hidden_state;
    '(output_means, output_vars) ← _means_and_vars_from_output self output;
    sample ← torch_normal output_means output_vars;
    mret (sample, hidden)
  else
    model_call self input last_hidden_state.
End RNNModel.
End RNNModel.

(** ** A small integer backend on which the model can be run *)

Module Sample.
Definition externals : Externals :=
  {| float := Z;
     hidden_state := Z;
     generator := nat;
     TimeSeries := list Z;
     user_module := Z;
     (* target size and probabilistic flag of the built module, if any *)
     base_state := option (Z * bool);
     (* the arguments the dataset was built from *)
     dataset := list (list Z) * option (list (list Z)) * Z * bool * Z |}.

Definition kernels : @Kernels externals :=
  @Build_Kernels externals
    (λ x : Z, Z.abs x + 1)
    (λ _ _ (h : option Z) i j k,
       default 0 h + Z.of_nat i + Z.of_nat j + Z.of_nat k)
    (λ _ _ (h : option Z), default 0 h + 1)
    (λ _ (row : list Z) k, foldr Z.add 0 row + Z.of_nat k)
    (λ cls _ hidden_size _ _ (dropout : Z),
       if negb (bool_decide (cls ∈ ["RNN"; "LSTM"; "GRU"])) then
         Some (AttributeError "module 'torch.nn' has no such attribute")
       else if bool_decide (hidden_size ≤ 0 ∨ dropout < 0 ∨ 1 < dropout) then
         Some (ValueError "invalid argument")
       else None)
    (λ i o,
       if bool_decide (i < 0 ∨ o < 0) then
         Some (RuntimeError "negative dimension")
       else None)
    (λ _ _ _, None)
    Z.add
    Z.mul
    (λ (g : nat) i j k, 2 + Z.of_nat g)
    (λ (g : nat) _, S g)
    (λ _ (std : list (list (list Z))),
       if bool_decide (Forall (Forall (Forall (λ s, 0 ≤ s))) std) then None
       else Some (RuntimeError "normal expects all elements of std >= 0.0"))
    (λ _ _, throw (RuntimeError "shapes cannot be broadcast")).

Definition backend : @RNNModel.Backend externals :=
  @RNNModel.Build_Backend externals
    (λ _, "MyModule")
    (λ u : Z, Some u)
    (λ _ x (h : option Z), mret (x, default 0 h))
    (λ _ _, Ok false)
    (λ _ _ _ _, mret 0)
    (λ kwargs,
       match kwargs !! "unexpected" with
       | Some _ => Raise (TypeError "unexpected keyword argument")
       | None => Ok None
       end)
    (λ b : option (Z * bool),
       match b with
       | Some (ts, p) =>
           match @RNNModule.__init__ externals kernels "LSTM" 2 3 ts 0 p with
           | Ok m => Some (RNNModuleObj m)
           | Raise _ => None
           end
       | None => None
       end)
    (λ _ _ _, mret 1)
    (λ c, Ok (ShiftedDataset.target_series c, ShiftedDataset.covariates c,
              ShiftedDataset.length c, ShiftedDataset.shift_covariates c,
              ShiftedDataset.shift c))
    (λ (condition : bool) message,
       if condition then Ok () else Raise (ValueError message)).

(** The world with the given storages. *)
Definition world_of (l : list (nat * list Z)) : @world externals :=
  @World externals (list_to_map l) 0%nat.

(** A world with one storage holding a contiguous [(1, 2, 4)] tensor. *)
Definition w0 : @world externals :=
  world_of [(0%nat, [1; 2; 3; 4; 5; 6; 7; 8])].
Definition x0 : tensor := contiguous 0 (1, 2, 4)%nat.
(** The same storage seen as a [(2, 2, 2)] tensor. *)
Definition x1 : tensor := contiguous 0 (2, 2, 2)%nat.

(** A model as [__init__] leaves it, around a built module. *)
Definition model (ts : Z) (p : bool) : @RNNModel.RNNModel externals :=
  @RNNModel.Build_RNNModel externals (Some (ts, p)) (VStr "LSTM") 0 3 24 true p.

(** The module [_RNNModule("LSTM", input_size, 3, target_size, 0, p)]. *)
Definition lstm (input_size target_size : Z) (p : bool)
    : @RNNModule._RNNModule externals :=
  @RNNModule.Build__RNNModule externals target_size "LSTM" p
    (@Build_Recurrent externals "LSTM" input_size 3 1 true 0)
    (Build_Linear 3 (target_size + Z.b2z p * target_size)).

(** A model that was given the user's own module [u]. *)
Definition wrapping (u : Z) : @RNNModel.RNNModel externals :=
  @RNNModel.Build_RNNModel externals None
    (@VModule externals (@UserModule externals u)) 0 3 24 true false.

(** The model [__init__] leaves when the base class keeps nothing and
    the [model] argument was [v]; the other arguments are the defaults. *)
Definition holding (v : @value externals) : @RNNModel.RNNModel externals :=
  @RNNModel.Build_RNNModel externals None v 0 25 24 true false.

(** [unittest.mock.ANY], of class [_ANY], whose [__eq__] answers [True]
    to everything. *)
Definition ANY : @value externals :=
  @VObject externals "_ANY" (λ _, Ok true).

End Sample.

(** ** The integer backend around a user's own module *)

Module SampleUser.
(** As [Sample.backend], but the model the base class holds is the user's
    module [ts], which has a [target_size] attribute only if asked. *)
Definition backend (has_target_size : bool)
    : @RNNModel.Backend Sample.externals :=
  @RNNModel.Build_Backend Sample.externals
    (λ _, "MyModule")
    (λ u : Z, if has_target_size then Some u else None)
    (@RNNModel.user_forward Sample.externals Sample.backend)
    (@RNNModel.user_eq Sample.externals Sample.backend)
    (@RNNModel.GaussianNLLLoss Sample.externals Sample.backend)
    (@RNNModel.base_init Sample.externals Sample.backend)
    (λ b : option (Z * bool),
       match b with
       | Some (ts, _) => Some (@UserModule Sample.externals ts)
       | None => None
       end)
    (@RNNModel.base_compute_loss Sample.externals Sample.backend)
    (@RNNModel.ShiftedDataset Sample.externals Sample.backend)
    (@RNNModel.raise_if_not Sample.externals Sample.backend).

Definition with_target_size : @RNNModel.Backend Sample.externals :=
  backend true.
Definition without_target_size : @RNNModel.Backend Sample.externals :=
  backend false.
End SampleUser.

(** * Properties *)

(** ** Lists read through [mapM] *)

Section MapM.
Context {A B C : Type}.
Implicit Types (f : A → option B) (l : list A) (r : list B).

Lemma mapM_take f l r k :
  mapM f l = Some r → mapM f (take k l) = Some (take k r).
Proof. rewrite !mapM_Some. apply Forall2_take. Qed.

Lemma mapM_drop f l r k :
  mapM f l = Some r → mapM f (drop k l) = Some (drop k r).
Proof. rewrite !mapM_Some. apply Forall2_drop. Qed.

Lemma mapM_fmap_arg (g : C → A) f (l : list C) :
  mapM f (g <$> l) = mapM (f ∘ g) l.
Proof.
  induction l as [|c l IH]; [done|]. csimpl.
  destruct (f (g c)) as [b|]; [|done].
  exact (f_equal (λ o, o ≫= λ k, mret (b :: k)) IH).
Qed.

Lemma mapM_Some_fmap f (f' : A → option C) (h : B → C) l r :
  (∀ a b, a ∈ l → f a = Some b → f' a = Some (h b)) →
  mapM f l = Some r → mapM f' l = Some (h <$> r).
Proof.
  rewrite !mapM_Some. intros Hf Hl. apply Forall2_fmap_r.
  induction Hl as [|a b l r Hab Hl IH]; constructor.
  - apply Hf; [left|done].
  - apply IH. intros ? ? ?. apply Hf. by right.
Qed.
End MapM.

(** ** What views and fresh tensors contain *)

Section Contents.
Context `{Externals}.
Implicit Types (w : world) (t : tensor) (d : data3).

Lemma slice_bound_le n i : (slice_bound n i ≤ n)%nat.
Proof. unfold slice_bound. case_bool_decide; lia. Qed.

Lemma slice_bound_nonneg n i :
  0 ≤ i ≤ Z.of_nat n → slice_bound n i = Z.to_nat i.
Proof. intros ?. unfold slice_bound. case_bool_decide; lia. Qed.

Lemma contents_slice_last_to w t d stop b l n :
  t_size t = (b, l, n) →
  contents w t = Some d →
  contents w (slice_last_to t stop)
  = Some (map_rows (take (slice_bound n stop)) d).
Proof.
  destruct t as [loc off sz st]; simpl. intros -> Hd.
  unfold contents, slice_last_to in *; simpl in *.
  destruct (storages w !! loc) as [s|]; simpl in *; [|done].
  eapply mapM_Some_fmap; [|exact Hd]. intros i m _ Hm.
  eapply mapM_Some_fmap; [|exact Hm]. intros j r _ Hr.
  pose proof (slice_bound_le n stop).
  replace (seq 0 (slice_bound n stop))
    with (take (slice_bound n stop) (seq 0 n))
    by (rewrite take_seq; f_equal; lia).
  by apply mapM_take.
Qed.

Lemma contents_slice_last_from w t d start b l n :
  t_size t = (b, l, n) →
  contents w t = Some d →
  contents w (slice_last_from t start)
  = Some (map_rows (drop (slice_bound n start)) d).
Proof.
  destruct t as [loc off sz [[s0 s1] s2]]; simpl. intros -> Hd.
  unfold contents, slice_last_from in *; simpl in *.
  destruct (storages w !! loc) as [s|]; simpl in *; [|done].
  eapply mapM_Some_fmap; [|exact Hd]. intros i m _ Hm.
  eapply mapM_Some_fmap; [|exact Hm]. intros j r _ Hr.
  set (c := slice_bound n start).
  apply (mapM_drop _ _ _ c) in Hr.
  rewrite drop_seq in Hr.
  replace (0 + c)%nat with (c + 0)%nat in Hr by lia.
  rewrite <-fmap_add_seq, mapM_fmap_arg in Hr.
  rewrite <-Hr. apply mapM_ext. intros k.
  unfold flat_index; simpl. f_equal. lia.
Qed.

Lemma contents_has_shape w t d :
  contents w t = Some d → has_shape (t_size t) d.
Proof.
  unfold contents, has_shape. destruct (t_size t) as [[b l] n].
  destruct (storages w !! t_storage t) as [s|]; simpl; [|done].
  intros Hd. split.
  { apply length_mapM in Hd. by rewrite length_seq in Hd. }
  apply mapM_Some in Hd. apply Forall_lookup. intros i m Him.
  destruct (Forall2_lookup_r _ _ _ _ _ Hd Him) as (? & _ & Hm). split.
  { apply length_mapM in Hm. by rewrite length_seq in Hm. }
  apply mapM_Some in Hm. apply Forall_lookup. intros j r Hjr.
  destruct (Forall2_lookup_r _ _ _ _ _ Hm Hjr) as (? & _ & Hr).
  apply length_mapM in Hr. by rewrite length_seq in Hr.
Qed.

Lemma has_shape_map_rows (f : list float → list float) b l n n' d :
  (∀ r, length r = n → length (f r) = n') →
  has_shape (b, l, n) d → has_shape (b, l, n') (map_rows f d).
Proof.
  unfold has_shape, map_rows. intros Hf [Hb Hd]. split.
  { by rewrite length_fmap. }
  apply Forall_fmap. eapply Forall_impl; [exact Hd|].
  intros m [Hl Hm]; simpl. split.
  { by rewrite length_fmap. }
  apply Forall_fmap. eapply Forall_impl; [exact Hm|]. intros r; simpl. auto.
Qed.

Lemma has_shape_map3 (f : float → float) sz d :
  has_shape sz d → has_shape sz (map3 f d).
Proof.
  destruct sz as [[b l] n]. apply (has_shape_map_rows (fmap f)).
  intros r. by rewrite length_fmap.
Qed.

Lemma has_shape_tabulate3 sz (f : nat → nat → nat → float) :
  has_shape sz (tabulate3 sz f).
Proof.
  destruct sz as [[b l] n]. unfold has_shape, tabulate3. split.
  { by rewrite length_fmap, length_seq. }
  apply Forall_fmap, Forall_forall. intros i _; simpl. split.
  { by rewrite length_fmap, length_seq. }
  apply Forall_fmap, Forall_forall. intros j _; simpl.
  by rewrite length_fmap, length_seq.
Qed.

(** Reading back in row-major order what was laid out in row-major order. *)
Lemma lookup_join_join d b l n i j k m r x :
  has_shape (b, l, n) d →
  d !! i = Some m → m !! j = Some r → r !! k = Some x →
  mjoin (mjoin d) !! (i * (l * n) + j * n + k)%nat = Some x.
Proof.
  intros [_ Hd] Hi Hj Hk.
  assert (Forall (λ m : list (list float), length m = l) d) as Hl.
  { eapply Forall_impl; [exact Hd|]. by intros ? [? _]. }
  assert (Forall (λ r : list float, length r = n) (mjoin d)) as Hn.
  { apply Forall_join. eapply Forall_impl; [exact Hd|]. by intros ? [_ ?]. }
  pose proof (lookup_lt_Some _ _ _ Hj) as Hjl.
  pose proof (lookup_lt_Some _ _ _ Hk) as Hkn.
  rewrite (Forall_lookup_1 _ _ _ _ Hl Hi) in Hjl.
  assert (length r = n) as Hr.
  { apply (Forall_lookup_1 _ _ j _ (proj2 (Forall_lookup_1 _ _ _ _ Hd Hi)) Hj). }
  rewrite Hr in Hkn.
  replace (i * (l * n) + j * n + k)%nat with ((i * l + j) * n + k)%nat by lia.
  apply (join_lookup_Some_same_length' n); [done..|].
  exists r. split; [|done].
  apply (join_lookup_Some_same_length' l); [done..|]. eauto.
Qed.

Lemma contents_alloc w sz d t w' :
  has_shape sz d → alloc sz d w = Ok (t, w') → contents w' t = Some d.
Proof.
  destruct sz as [[b l] n]. intros Hd [= <- <-].
  unfold contents; simpl. rewrite lookup_insert_eq; simpl.
  pose proof Hd as [Hb Hlen].
  apply mapM_Some, Forall2_same_length_lookup_2.
  { by rewrite length_seq. }
  intros i ? m [-> _]%lookup_seq Him; simpl.
  destruct (Forall_lookup_1 _ _ _ _ Hlen Him) as [Hl Hrows].
  apply mapM_Some, Forall2_same_length_lookup_2.
  { by rewrite length_seq. }
  intros j ? r [-> _]%lookup_seq Hjr; simpl.
  apply mapM_Some, Forall2_same_length_lookup_2.
  { rewrite length_seq. symmetry. apply (Forall_lookup_1 _ _ _ _ Hrows Hjr). }
  intros k ? x [-> _]%lookup_seq Hkx; simpl.
  unfold flat_index; simpl.
  rewrite Nat.mul_1_r. by eapply lookup_join_join.
Qed.

Lemma alloc_storages_kept w sz d t w' :
  alloc sz d w = Ok (t, w') → storages_kept w w'.
Proof.
  intros [= <- <-] loc s Hs; simpl.
  rewrite lookup_insert_ne; [done|]. intros <-.
  apply (is_fresh (dom (storages w))), elem_of_dom. eauto.
Qed.

Lemma alloc_tensor w sz d t w' :
  alloc sz d w = Ok (t, w') →
  t_size t = sz ∧ is_contiguous t = true ∧ rng w' = rng w.
Proof.
  intros [= <- <-]; simpl. split_and!; [done| |done].
  unfold is_contiguous; simpl. by apply bool_decide_eq_true.
Qed.

Lemma contents_kept w w' t d :
  storages_kept w w' → contents w t = Some d → contents w' t = Some d.
Proof.
  unfold contents. intros Hk Hd.
  destruct (storages w !! t_storage t) as [s|] eqn:Hs; [|done].
  by rewrite (Hk _ _ Hs).
Qed.

Lemma read_contents t w d : contents w t = Some d → read t w = Ok (d, w).
Proof. unfold read. by intros ->. Qed.
End Contents.

(** ** Running the torch operations *)

Section TorchRuns.
Context `{Kernels}.
Implicit Types (w : world) (t : tensor) (d : data3).

Lemma has_shape_zip3 (f : float → float → float) sz d1 d2 :
  has_shape sz d1 → has_shape sz d2 → has_shape sz (zip3 f d1 d2).
Proof.
  destruct sz as [[b l] n]. unfold has_shape, zip3. intros [Hb1 H1] [Hb2 H2].
  split.
  { rewrite length_zip_with. lia. }
  apply Forall_lookup. intros i m Hi.
  apply lookup_zip_with_Some in Hi as (m1 & m2 & -> & Hm1 & Hm2).
  destruct (Forall_lookup_1 _ _ _ _ H1 Hm1) as [Hl1 Hr1].
  destruct (Forall_lookup_1 _ _ _ _ H2 Hm2) as [Hl2 Hr2].
  split.
  { rewrite length_zip_with. lia. }
  apply Forall_lookup. intros j r Hj.
  apply lookup_zip_with_Some in Hj as (r1 & r2 & -> & Hj1 & Hj2).
  rewrite length_zip_with.
  rewrite (Forall_lookup_1 _ _ _ _ Hr1 Hj1), (Forall_lookup_1 _ _ _ _ Hr2 Hj2).
  lia.
Qed.

(** [torch.normal] on two valid tensors of one shape that it accepts:
    the new tensor holds [z * std + mean] for the generator's draws [z],
    nothing that existed is changed, and the generator moves on. *)
Lemma torch_normal_run w mean std dm ds :
  contents w mean = Some dm →
  contents w std = Some ds →
  t_size mean = t_size std →
  normal_error dm ds = None →
  ∃ sample w',
    torch_normal mean std w = Ok (sample, w') ∧
    contents w' sample
    = Some (zip3 fadd
              (zip3 fmul (tabulate3 (t_size mean) (randn (rng w))) ds) dm) ∧
    t_size sample = t_size mean ∧
    storages_kept w w' ∧
    rng w' = rng_next (rng w) (t_size mean).
Proof.
  intros Hm Hs Hsz Hok. unfold torch_normal. torch_unfold.
  rewrite (read_contents _ _ _ Hm), (read_contents _ _ _ Hs).
  rewrite bool_decide_eq_true_2 by done. rewrite Hok.
  set (d := zip3 _ _ _).
  set (w1 := World _ _).
  assert (has_shape (t_size mean) d) as Hd.
  { apply has_shape_zip3; [|by apply (contents_has_shape w)].
    apply has_shape_zip3; [apply has_shape_tabulate3|].
    rewrite Hsz. by apply (contents_has_shape w). }
  destruct (alloc (t_size mean) d w1) as [[v w']|] eqn:Ha; [|done].
  exists v, w'. split_and!; [done|..].
  - by eapply contents_alloc.
  - by apply alloc_tensor in Ha as (? & _ & _).
  - intros loc st Hst. by apply (alloc_storages_kept _ _ _ _ _ Ha).
  - by apply alloc_tensor in Ha as (_ & _ & ->).
Qed.

Lemma Softplus_run w t d :
  contents w t = Some d →
  ∃ v w', Softplus t w = Ok (v, w') ∧
          contents w' v = Some (map3 softplus d) ∧
          t_size v = t_size t ∧ storages_kept w w' ∧ rng w' = rng w.
Proof.
  intros Hd. unfold Softplus. torch_unfold.
  rewrite (read_contents _ _ _ Hd).
  destruct (alloc (t_size t) (map3 softplus d) w) as [[v w']|] eqn:Ha; [|done].
  exists v, w'. split_and!; [done|..].
  - eapply contents_alloc; [|exact Ha].
    by apply has_shape_map3, (contents_has_shape w).
  - by apply alloc_tensor in Ha as (? & _ & _).
  - by eapply alloc_storages_kept.
  - by apply alloc_tensor in Ha as (_ & _ & ?).
Qed.
End TorchRuns.

(** ** _RNNModule *)

Section TorchCalls.
Context `{Kernels}.
Implicit Types (w : world) (t x : tensor) (d : data3).

Lemma alloc_run w sz d :
  has_shape sz d →
  ∃ t w', alloc sz d w = Ok (t, w') ∧ t_size t = sz ∧
          is_contiguous t = true ∧ contents w' t = Some d.
Proof.
  intros Hd. destruct (alloc sz d w) as [[t w']|] eqn:Ha; [|done].
  exists t, w'. destruct (alloc_tensor _ _ _ _ _ Ha) as (? & ? & _).
  split_and!; [done..|]. by eapply contents_alloc.
Qed.

Lemma alloc_inv w sz d t w' :
  has_shape sz d → alloc sz d w = Ok (t, w') →
  t_size t = sz ∧ is_contiguous t = true ∧ contents w' t = Some d.
Proof.
  intros Hd Ha. destruct (alloc_tensor _ _ _ _ _ Ha) as (? & ? & _).
  split_and!; [done..|]. by eapply contents_alloc.
Qed.

(** A recurrent module returns only when its input is valid memory
    with [input_size] features; the output has [hidden_size] features. *)
Lemma recurrent_call_inv (m : Recurrent) x h w out hid w' b l n :
  t_size x = (b, l, n) →
  recurrent_call m x h w = Ok ((out, hid), w') →
  Z.of_nat n = rnn_input_size m ∧ 0 ≤ rnn_hidden_size m ∧
  t_size out = (b, l, Z.to_nat (rnn_hidden_size m)) ∧
  is_Some (contents w' out).
Proof.
  intros Hsz. unfold recurrent_call. torch_unfold. unfold read. rewrite Hsz.
  destruct (contents w x) as [d|]; [|done].
  case_bool_decide as Hc; [|done]. destruct Hc as [Hn Hh].
  destruct (recurrent_call_error m d h); [done|].
  destruct (alloc _ _ w) as [[t w1]|] eqn:Ha; [|done].
  intros [= <- <- <-].
  apply alloc_inv in Ha as (? & _ & ?); [|apply has_shape_tabulate3].
  split_and!; eauto.
Qed.

Lemma recurrent_call_run (m : Recurrent) x h w d b l n :
  t_size x = (b, l, n) →
  contents w x = Some d →
  Z.of_nat n = rnn_input_size m → 0 ≤ rnn_hidden_size m →
  recurrent_call_error m d h = None →
  ∃ out w', recurrent_call m x h w = Ok ((out, rnn_hidden m d h), w').
Proof.
  intros Hsz Hd Hn Hh He. unfold recurrent_call. torch_unfold. unfold read.
  rewrite Hsz, Hd. rewrite bool_decide_eq_true_2 by done. rewrite He.
  destruct (alloc_run w (b, l, Z.to_nat (rnn_hidden_size m))
              (tabulate3 (b, l, Z.to_nat (rnn_hidden_size m))
                 (rnn_output m d h)))
    as (out & w' & -> & _); [apply has_shape_tabulate3|]. eauto.
Qed.

Lemma linear_call_inv (m : Linear) x w out w' b l n :
  t_size x = (b, l, n) →
  linear_call m x w = Ok (out, w') →
  Z.of_nat n = in_features m ∧ 0 ≤ out_features m ∧
  t_size out = (b, l, Z.to_nat (out_features m)) ∧
  is_contiguous out = true.
Proof.
  intros Hsz. unfold linear_call. torch_unfold. unfold read. rewrite Hsz.
  destruct (contents w x) as [d|]; [|done].
  case_bool_decide as Hc; [|done]. destruct Hc as [Hn Ho].
  intros (? & ? & _)%alloc_tensor. done.
Qed.

Lemma linear_call_run (m : Linear) x w b l n :
  t_size x = (b, l, n) →
  is_Some (contents w x) →
  Z.of_nat n = in_features m → 0 ≤ out_features m →
  ∃ out w', linear_call m x w = Ok (out, w').
Proof.
  intros Hsz [d Hd] Hn Ho. unfold linear_call. torch_unfold. unfold read.
  rewrite Hsz, Hd. rewrite bool_decide_eq_true_2 by done.
  unfold alloc. eauto.
Qed.

(** [view(d0, -1, d2)] returns only when the two given extents are
    positive and their product divides the number of elements. *)
Lemma view_infer_inv t (d0 d2 : Z) w v w' :
  view_infer t d0 d2 w = Ok (v, w') →
  0 < d0 ∧ 0 < d2 ∧
  t_size v = (Z.to_nat d0, (numel t / (Z.to_nat d0 * Z.to_nat d2))%nat,
              Z.to_nat d2).
Proof.
  unfold view_infer. torch_unfold.
  case_bool_decide as Hneg; [done|].
  case_bool_decide as Hzero; [done|].
  case_bool_decide; simpl; [|done].
  destruct (is_contiguous t); simpl; [|done].
  intros [= <- <-]. split_and!; [nia..|done].
Qed.

Lemma view_infer_run t (d0 d2 : Z) w :
  0 < d0 → 0 < d2 →
  (numel t `mod` (Z.to_nat d0 * Z.to_nat d2) = 0)%nat →
  is_contiguous t = true →
  ∃ v, view_infer t d0 d2 w = Ok (v, w).
Proof.
  intros Hd0 Hd2 Hmod Hc. unfold view_infer. torch_unfold.
  rewrite bool_decide_eq_false_2 by lia.
  rewrite bool_decide_eq_false_2 by nia.
  rewrite bool_decide_eq_true_2 by done. rewrite Hc. simpl. eauto.
Qed.
End TorchCalls.

Module RNNModuleFacts.
Import RNNModule.
Section RNNModuleFacts.
Context `{Kernels}.
Implicit Types (w : world) (x : tensor) (h : option hidden_state).

Lemma init_inv (name : string) (input_size hidden_dim target_size : Z)
    (dropout : float) (probabilistic : bool) self :
  __init__ name input_size hidden_dim target_size dropout probabilistic
  = Ok self →
  self = {| target_size := target_size;
            name := name;
            is_probabilistic := probabilistic;
            rnn := {| rnn_class := name;
                      rnn_input_size := input_size;
                      rnn_hidden_size := hidden_dim;
                      rnn_num_layers := 1;
                      rnn_batch_first := true;
                      rnn_dropout := dropout |};
            V := {| in_features := hidden_dim;
                    out_features :=
                      target_size + Z.b2z probabilistic * target_size |} |}.
Proof.
  unfold __init__, nn_recurrent, nn_Linear, mbind, result_bind, mret, result_ret.
  destruct (recurrent_init_error _ _ _ _ _ _); [done|].
  destruct (linear_init_error _ _); [done|]. by intros [= <-].
Qed.

(** C9: every [_RNNModule] builds its recurrent module with exactly one
    layer and [batch_first] true, whatever the dropout: the module it
    stores is the class of [torch.nn] called [name], applied to
    [(input_size, hidden_dim, 1)], and it is that call whose refusal by
    torch makes the constructor raise. *)
Theorem init_recurrent_module (name : string)
    (input_size hidden_dim target_size : Z) (dropout : float)
    (probabilistic : bool) :
  let run :=
    __init__ name input_size hidden_dim target_size dropout probabilistic in
  (∀ self, run = Ok self →
     rnn_num_layers (rnn self) = 1 ∧
     rnn_batch_first (rnn self) = true ∧
     rnn_class (rnn self) = name ∧
     rnn_input_size (rnn self) = input_size ∧
     rnn_hidden_size (rnn self) = hidden_dim ∧
     nn_recurrent name input_size hidden_dim 1 true dropout = Ok (rnn self)) ∧
  (∀ e, nn_recurrent name input_size hidden_dim 1 true dropout = Raise e →
        run = Raise e) ∧
  (∀ r V, nn_recurrent name input_size hidden_dim 1 true dropout = Ok r →
          nn_Linear hidden_dim
            (target_size + Z.b2z probabilistic * target_size) = Ok V →
          ∃ self, run = Ok self ∧ rnn self = r).
Proof.
  intros run. split_and!.
  - intros self Hself. pose proof (init_inv _ _ _ _ _ _ _ Hself) as ->.
    split_and!; [done..|].
    revert Hself. unfold run, __init__, mbind, result_bind.
    destruct (nn_recurrent _ _ _ _ _ _) as [r|]; [|done].
    destruct (nn_Linear _ _); [|done]. by intros [= <-].
  - intros e He. unfold run, __init__, mbind, result_bind. by rewrite He.
  - intros r V0 Hr HV. unfold run, __init__, mbind, result_bind.
    rewrite Hr, HV. eauto.
Qed.

Lemma numel_div (b l o : nat) :
  (0 < b)%nat → (0 < o)%nat → (b * l * o / (b * o) = l)%nat.
Proof.
  intros. replace (b * l * o)%nat with (l * (b * o))%nat by lia.
  apply Nat.div_mul. lia.
Qed.

Lemma numel_mod (b l o : nat) :
  (0 < b)%nat → (0 < o)%nat → ((b * l * o) `mod` (b * o) = 0)%nat.
Proof.
  intros. replace (b * l * o)%nat with (l * (b * o))%nat by lia.
  apply Nat.Div0.mod_mul.
Qed.

Lemma double_features (probabilistic : bool) (target_size : Z) :
  target_size + Z.b2z probabilistic * target_size
  = if probabilistic then 2 * target_size else target_size.
Proof. destruct probabilistic; simpl; lia. Qed.

(** C7: on an input of shape [(batch_size, input_length, input_size)]
    the first tensor [forward] returns has shape
    [(batch_size, input_length, target_size)], with [2 * target_size]
    in place of [target_size] for a probabilistic module, the number of
    output features that [V] was built with; and [forward] does return
    when the batch and the target are not empty and torch accepts the
    call of the recurrent module. *)
Theorem forward_output_shape (name : string)
    (input_size hidden_dim target_size : Z) (dropout : float)
    (probabilistic : bool) self x h w (b l n : nat) :
  let features := if probabilistic then 2 * target_size else target_size in
  __init__ name input_size hidden_dim target_size dropout probabilistic
  = Ok self →
  t_size x = (b, l, n) →
  Z.of_nat n = input_size →
  out_features (V self) = target_size + Z.b2z probabilistic * target_size ∧
  (∀ predictions hidden w',
     forward self x h w = Ok ((predictions, hidden), w') →
     ∃ k, t_size predictions = (b, l, k) ∧ Z.of_nat k = features) ∧
  (∀ d, contents w x = Some d →
        recurrent_call_error (rnn self) d h = None →
        (0 < b)%nat → 0 < hidden_dim → 0 < target_size →
        ∃ predictions hidden w',
          forward self x h w = Ok ((predictions, hidden), w')).
Proof.
  intros features Hself Hsz Hn.
  apply init_inv in Hself.
  assert (size0 x = Z.of_nat b) as Hb by (unfold size0; by rewrite Hsz).
  assert (out_features (V self) = features) as HV
    by (subst self; apply double_features).
  assert (RNNModule.target_size self
          + Z.b2z (is_probabilistic self) * RNNModule.target_size self
          = features)
    as Hfeat by (subst self; apply double_features).
  assert (rnn_input_size (rnn self) = input_size ∧
          rnn_hidden_size (rnn self) = hidden_dim ∧
          in_features (V self) = hidden_dim) as (Hin & Hhid & HVin)
    by (by subst self).
  assert (∀ w1, match h with
                | None => recurrent_call (rnn self) x None
                | Some h0 => recurrent_call (rnn self) x (Some h0)
                end w1 = recurrent_call (rnn self) x h w1) as Hmatch
    by (by destruct h).
  split_and!.
  - subst self. done.
  - intros predictions hidden w'. unfold forward. torch_unfold.
    rewrite Hb, Hfeat, Hmatch.
    destruct (recurrent_call (rnn self) x h w) as [[[out hid] w1]|] eqn:Hr;
      [|done].
    apply (recurrent_call_inv _ _ _ _ _ _ _ b l n Hsz) in Hr
      as (_ & _ & Hout & _).
    destruct (linear_call (V self) out w1) as [[p w2]|] eqn:Hl; [|done].
    apply (linear_call_inv _ _ _ _ _ _ _ _ Hout) in Hl as (_ & _ & Hp & _).
    rewrite HV in Hp.
    destruct (view_infer p (Z.of_nat b) features w2) as [[v w3]|] eqn:Hv;
      [|done].
    apply view_infer_inv in Hv as (Hb0 & Hf & Hv).
    intros [= <- _ _]. exists (Z.to_nat features). split; [|lia].
    rewrite Hv. unfold numel. rewrite Hp, Nat2Z.id, numel_div by lia. done.
  - intros d Hd Herr Hb0 Hh Ht. unfold forward. torch_unfold.
    rewrite Hb, Hfeat, Hmatch.
    assert (0 < features) as Hf
      by (unfold features; destruct probabilistic; lia).
    destruct (recurrent_call_run (rnn self) x h w d b l n Hsz Hd)
      as (out & w1 & Hr); [lia|lia|done|].
    rewrite Hr.
    apply (recurrent_call_inv _ _ _ _ _ _ _ b l n Hsz) in Hr
      as (_ & _ & Hout & Hc).
    destruct (linear_call_run (V self) out w1 _ _ _ Hout Hc)
      as (p & w2 & Hl); [lia|lia|].
    rewrite Hl.
    apply (linear_call_inv _ _ _ _ _ _ _ _ Hout) in Hl as (_ & _ & Hp & Hpc).
    rewrite HV in Hp.
    destruct (view_infer_run p (Z.of_nat b) features w2) as [v ->];
      [lia|lia| |done|eauto].
    unfold numel. rewrite Hp, Nat2Z.id. apply numel_mod; lia.
Qed.
End RNNModuleFacts.
End RNNModuleFacts.

(** ** RNNModel *)

Module RNNModelFacts.
Import RNNModel.
Section RNNModelFacts.
Context `{Kernels} `{!Backend}.
Implicit Types (self : RNNModel) (w : world) (d : data3).

Lemma model_target_size_pure self w ts w' :
  model_target_size self w = Ok (ts, w') →
  w' = w ∧ ∀ w2, model_target_size self w2 = Ok (ts, w2).
Proof.
  unfold model_target_size. torch_unfold.
  destruct (base_model (base self)) as [[r|u]|]; [| |done].
  - by intros [= <- <-].
  - destruct (user_target_size u); [|done]. by intros [= <- <-].
Qed.

(** The two results of [_means_and_vars_from_output], for any integer
    in [self.model.target_size]. *)
Lemma means_and_vars_run self w output d ts b l n :
  model_target_size self w = Ok (ts, w) →
  t_size output = (b, l, n) →
  contents w output = Some d →
  ∃ vars w',
    _means_and_vars_from_output self output w
    = Ok ((slice_last_to output ts, vars), w') ∧
    contents w' (slice_last_to output ts)
    = Some (map_rows (take (slice_bound n ts)) d) ∧
    contents w' vars
    = Some (map3 softplus (map_rows (drop (slice_bound n ts)) d)) ∧
    t_size vars = (b, l, (n - slice_bound n ts)%nat) ∧
    storages_kept w w' ∧ rng w' = rng w.
Proof.
  intros Hts Hsz Hd.
  apply model_target_size_pure in Hts as [_ Hts].
  pose proof (contents_slice_last_from w output d ts b l n Hsz Hd) as Hfrom.
  destruct (Softplus_run _ _ _ Hfrom) as (vars & w' & Hrun & Hv & Hvs & Hk & Hr).
  exists vars, w'. split_and!; [|..|done|done].
  - unfold _means_and_vars_from_output. torch_unfold.
    by rewrite !Hts, Hrun.
  - eapply contents_kept; [exact Hk|].
    exact (contents_slice_last_to w output d ts b l n Hsz Hd).
  - done.
  - rewrite Hvs. unfold slice_last_from. rewrite Hsz.
    by destruct (t_stride output) as [[? ?] ?].
Qed.

(** C1: for every target sequence and every covariates sequence, absent
    or not, [_build_train_dataset] returns what the [ShiftedDataset]
    constructor makes of exactly that target and those covariates, with
    [shift] 1, [length] the model's [training_length] and
    [shift_covariates] true. *)
Theorem build_train_dataset_call self (target : list TimeSeries)
    (covariates : option (list TimeSeries)) :
  ∃ c : ShiftedDataset.call,
    _build_train_dataset self target covariates = ShiftedDataset c ∧
    ShiftedDataset.target_series c = target ∧
    ShiftedDataset.covariates c = covariates ∧
    ShiftedDataset.shift c = 1 ∧
    ShiftedDataset.length c = training_length self ∧
    ShiftedDataset.shift_covariates c = true.
Proof. eexists. split; [reflexivity|]. by simpl. Qed.

(** C2: when the last dimension of the network output has at least
    [target_size] entries, [_means_and_vars_from_output] returns the
    means, which are the first [target_size] components of every feature
    vector, and the variances, which are Softplus of each of the
    remaining components; the output tensor still denotes the same
    elements afterwards, and no storage that existed has changed. *)
Theorem means_and_vars_from_output_spec self w output d (ts : Z) b l n :
  model_target_size self w = Ok (ts, w) →
  t_size output = (b, l, n) →
  contents w output = Some d →
  0 ≤ ts ≤ Z.of_nat n →
  ∃ means vars w',
    _means_and_vars_from_output self output w = Ok ((means, vars), w') ∧
    contents w' means = Some (map_rows (take (Z.to_nat ts)) d) ∧
    contents w' vars = Some (map3 softplus (map_rows (drop (Z.to_nat ts)) d)) ∧
    contents w' output = Some d ∧
    storages_kept w w'.
Proof.
  intros Hts Hsz Hd Hle.
  destruct (means_and_vars_run self w output d ts b l n Hts Hsz Hd)
    as (vars & w' & Hrun & Hm & Hv & _ & Hk & _).
  rewrite (slice_bound_nonneg n ts Hle) in Hm, Hv.
  exists (slice_last_to output ts), vars, w'. split_and!; try done.
  by eapply contents_kept.
Qed.

(** C3: a model that is not probabilistic returns exactly what calling
    the underlying module on the input and the hidden state returns. A
    probabilistic one returns, with the module's hidden state, a draw
    of [torch.normal] in which the second tensor of
    [_means_and_vars_from_output], the Softplus of the remaining
    components, is the standard deviation: every element is
    [z * vars + mean] for a standard normal [z], where a Gaussian of
    variance [vars] has [z * sqrt vars + mean]. The same tensor is what
    [_compute_loss] gives to the Gaussian loss as the variance. *)
Theorem produce_predict_output_std self input last_hidden_state w :
  (is_probabilistic self = false →
   _produce_predict_output self input last_hidden_state w
   = model_call self input last_hidden_state w) ∧
  (is_probabilistic self = true →
   ∀ output hidden w1 d (ts : Z) b l n,
     model_call self input last_hidden_state w = Ok ((output, hidden), w1) →
     model_target_size self w1 = Ok (ts, w1) →
     t_size output = (b, l, n) →
     contents w1 output = Some d →
     0 ≤ ts ≤ Z.of_nat n →
     (n - Z.to_nat ts = Z.to_nat ts)%nat →
     let mean := map_rows (take (Z.to_nat ts)) d in
     let vars := map3 softplus (map_rows (drop (Z.to_nat ts)) d) in
     let z := tabulate3 (b, l, Z.to_nat ts) (randn (rng w1)) in
     normal_error mean vars = None →
     ∃ output_means output_vars w2 sample w3,
       _means_and_vars_from_output self output w1
       = Ok ((output_means, output_vars), w2) ∧
       contents w2 output_means = Some mean ∧
       contents w2 output_vars = Some vars ∧
       _produce_predict_output self input last_hidden_state w
       = Ok ((sample, hidden), w3) ∧
       contents w3 sample = Some (zip3 fadd (zip3 fmul z vars) mean) ∧
       ∀ target,
         _compute_loss self output target w1
         = GaussianNLLLoss "sum" output_means target output_vars w2).
Proof.
  split; [by unfold _produce_predict_output; intros ->|].
  intros Hp output hidden w1 d ts b l n Hcall Hts Hsz Hd Hle Hhalf
    mean vars z Hok.
  destruct (means_and_vars_run self w1 output d ts b l n Hts Hsz Hd)
    as (output_vars & w2 & Hrun & Hm & Hv & Hvs & Hk & Hr).
  rewrite (slice_bound_nonneg n ts Hle) in Hm, Hv, Hvs.
  assert (t_size (slice_last_to output ts) = (b, l, Z.to_nat ts)) as Hms.
  { unfold slice_last_to. rewrite Hsz, (slice_bound_nonneg n ts Hle).
    by destruct (t_stride output) as [[? ?] ?]. }
  destruct (torch_normal_run w2 (slice_last_to output ts) output_vars
              mean vars Hm Hv) as (sample & w3 & Hn & Hc & _ & _ & _).
  { by rewrite Hms, Hvs, Hhalf. }
  { done. }
  exists (slice_last_to output ts), output_vars, w2, sample, w3.
  split_and!; [done..| | |].
  - unfold _produce_predict_output. rewrite Hp. torch_unfold.
    by rewrite Hcall, Hrun, Hn.
  - by rewrite Hc, Hms, Hr.
  - intros target. unfold _compute_loss. rewrite Hp. torch_unfold.
    by rewrite Hrun.
Qed.

(** C4: the loss of a probabilistic model is the Gaussian negative
    log-likelihood with reduction 'sum' of the means, the target and
    the variances that [_means_and_vars_from_output] extracts from the
    output; otherwise it is the loss of the base class on the same
    output and target. *)
Theorem compute_loss_spec self output target w :
  (is_probabilistic self = true →
   ∀ means vars w1,
     _means_and_vars_from_output self output w = Ok ((means, vars), w1) →
     _compute_loss self output target w
     = GaussianNLLLoss "sum" means target vars w1) ∧
  (is_probabilistic self = false →
   _compute_loss self output target w
   = base_compute_loss self output target w).
Proof.
  unfold _compute_loss. split; intros ->; [|done].
  intros means vars w1 Hmv. torch_unfold. by rewrite Hmv.
Qed.


Lemma py_in_name (s : string) :
  s = "RNN" ∨ s = "LSTM" ∨ s = "GRU" →
  py_in (VStr s) ["RNN"; "LSTM"; "GRU"] = Ok true.
Proof. by intros [->| [->| ->]]. Qed.



(** C8: whatever keyword arguments the caller passes, the base class is
    initialised from keyword arguments in which [output_chunk_length] is
    1 and [input_chunk_length] is the parameter of that name, whether or
    not the caller had put entries under these names; all other
    entries are passed on as given. *)
Theorem init_base_kwargs (model : value) (input_chunk_length hidden_dim : Z)
    (dropout : float) (training_length : Z) (probabilistic : bool)
    (random_state : value) (kwargs : gmap string value) :
  let run :=
    __init__ model input_chunk_length hidden_dim dropout training_length
      probabilistic random_state kwargs in
  ∃ passed : gmap string value,
    passed !! "output_chunk_length" = Some (VInt 1) ∧
    passed !! "input_chunk_length" = Some (VInt input_chunk_length) ∧
    (∀ key, key ≠ "output_chunk_length" → key ≠ "input_chunk_length" →
            passed !! key = kwargs !! key) ∧
    (∀ e, base_init passed = Raise e → run = Raise e) ∧
    (∀ self, run = Ok self → base_init passed = Ok (base self)).
Proof.
  intros run.
  exists (<["output_chunk_length" := VInt 1]>
            (<["input_chunk_length" := VInt input_chunk_length]> kwargs)).
  split_and!.
  - by rewrite lookup_insert_eq.
  - by rewrite lookup_insert_ne, lookup_insert_eq.
  - intros key ? ?. by rewrite !lookup_insert_ne.
  - intros e He. unfold run, __init__, mbind, result_bind. by rewrite He.
  - intros self. unfold run, __init__, mbind, result_bind, mret, result_ret.
    destruct (base_init _) as [b|]; [|done].
    destruct (py_in _ _) as [member|]; [|done].
    destruct (if negb _ then _ else _); [|done]. by intros [= <-].
Qed.

(** C6: when [rnn_type_or_module] is one of "RNN", "LSTM", "GRU",
    what [_create_model] returns is an [_RNNModule] of that name whose
    input size is [input_dim], whose target size is [output_dim] and
    whose hidden dimension, dropout and probabilistic flag are the
    model's, and it returns one whenever the constructor does; when
    [rnn_type_or_module] compares unequal to each of the three strings,
    as every [_RNNModule] does, it returns [rnn_type_or_module]
    itself. *)
Theorem create_model_spec self (input_dim output_dim : Z) :
  (∀ s, rnn_type_or_module self = VStr s →
        s = "RNN" ∨ s = "LSTM" ∨ s = "GRU" →
        (∀ v, _create_model self input_dim output_dim = Ok v →
              ∃ m, v = VModule (RNNModuleObj m) ∧
                   RNNModule.name m = s ∧
                   rnn_class (RNNModule.rnn m) = s ∧
                   rnn_input_size (RNNModule.rnn m) = input_dim ∧
                   RNNModule.target_size m = output_dim ∧
                   rnn_hidden_size (RNNModule.rnn m) = hidden_dim self ∧
                   in_features (RNNModule.V m) = hidden_dim self ∧
                   rnn_dropout (RNNModule.rnn m) = dropout self ∧
                   RNNModule.is_probabilistic m = is_probabilistic self) ∧
        (∀ m, RNNModule.__init__ s input_dim (hidden_dim self) output_dim
                (dropout self) (is_probabilistic self) = Ok m →
              _create_model self input_dim output_dim
              = Ok (VModule (RNNModuleObj m)))) ∧
  (py_in (rnn_type_or_module self) ["RNN"; "LSTM"; "GRU"] = Ok false →
   _create_model self input_dim output_dim = Ok (rnn_type_or_module self)) ∧
  (∀ m, rnn_type_or_module self = VModule (RNNModuleObj m) →
        _create_model self input_dim output_dim
        = Ok (rnn_type_or_module self)).
Proof.
  unfold _create_model. split_and!.
  - intros s -> Hs. rewrite (py_in_name s Hs).
    unfold mbind, result_bind, mret, result_ret; simpl. split.
    + intros v.
      destruct (RNNModule.__init__ _ _ _ _ _ _) as [m|] eqn:Hm; [|done].
      intros [= <-]. exists m. apply RNNModuleFacts.init_inv in Hm as ->.
      by split_and!.
    + by intros m ->.
  - by intros ->.
  - by intros m ->.
Qed.
End RNNModelFacts.
End RNNModelFacts.

(** ** The theorems at work on the integer backend *)

Section Runs.
Import RNNModel.
#[local] Existing Instance Sample.externals.
#[local] Existing Instance Sample.kernels.
#[local] Existing Instance Sample.backend.

Lemma means_and_vars_from_output_spec_witness :
  ∃ means vars w',
    _means_and_vars_from_output (Sample.model 1 true) Sample.x0 Sample.w0
    = Ok ((means, vars), w') ∧
    contents w' means = Some [[[1]; [5]]] ∧
    contents w' vars = Some [[[3; 4; 5]; [7; 8; 9]]] ∧
    contents w' Sample.x0 = Some [[[1; 2; 3; 4]; [5; 6; 7; 8]]] ∧
    storages_kept Sample.w0 w'.
Proof.
  assert (model_target_size (Sample.model 1 true) Sample.w0
          = Ok (1, Sample.w0)) as Hts by reflexivity.
  assert (t_size Sample.x0 = (1, 2, 4)%nat) as Hsz by reflexivity.
  assert (contents Sample.w0 Sample.x0
          = Some [[[1; 2; 3; 4]; [5; 6; 7; 8]]]) as Hd
    by (vm_compute; reflexivity).
  assert (0 ≤ 1 ≤ Z.of_nat 4) as Hle by lia.
  exact (RNNModelFacts.means_and_vars_from_output_spec
           (Sample.model 1 true) Sample.w0 Sample.x0
           [[[1; 2; 3; 4]; [5; 6; 7; 8]]] 1 1 2 4 Hts Hsz Hd Hle).
Defined.


Lemma produce_predict_output_std_witness :
  let out := contiguous 2 (2, 2, 2)%nat in
  let w1 := Sample.world_of
              [(0%nat, [1; 2; 3; 4; 5; 6; 7; 8]);
               (1%nat, [0; 1; 2; 1; 2; 3; 1; 2; 3; 2; 3; 4]);
               (2%nat, [3; 4; 6; 7; 6; 7; 9; 10])] in
  _produce_predict_output (Sample.model 1 false) Sample.x1 None Sample.w0
  = model_call (Sample.model 1 false) Sample.x1 None Sample.w0 ∧
  model_call (Sample.model 1 true) Sample.x1 None Sample.w0
  = Ok ((out, 1), w1) ∧
  randn (rng w1) 0%nat 0%nat 0%nat = 2 ∧
  ∃ output_means output_vars w2 sample w3,
    _means_and_vars_from_output (Sample.model 1 true) out w1
    = Ok ((output_means, output_vars), w2) ∧
    contents w2 output_means = Some [[[3]; [6]]; [[6]; [9]]] ∧
    contents w2 output_vars = Some [[[5]; [8]]; [[8]; [11]]] ∧
    _produce_predict_output (Sample.model 1 true) Sample.x1 None Sample.w0
    = Ok ((sample, 1), w3) ∧
    contents w3 sample = Some [[[13]; [22]]; [[22]; [31]]] ∧
    ∀ target,
      _compute_loss (Sample.model 1 true) out target w1
      = GaussianNLLLoss "sum" output_means target output_vars w2.
Proof.
  intros out w1.
  assert (is_probabilistic (Sample.model 1 false) = false) as Hpoint
    by reflexivity.
  assert (is_probabilistic (Sample.model 1 true) = true) as Hprob
    by reflexivity.
  assert (model_call (Sample.model 1 true) Sample.x1 None Sample.w0
          = Ok ((out, 1), w1)) as Hcall by (vm_compute; reflexivity).
  assert (model_target_size (Sample.model 1 true) w1 = Ok (1, w1)) as Hts
    by reflexivity.
  assert (t_size out = (2, 2, 2)%nat) as Hsz by reflexivity.
  assert (contents w1 out = Some [[[3; 4]; [6; 7]]; [[6; 7]; [9; 10]]]) as Hd
    by (vm_compute; reflexivity).
  assert (0 ≤ 1 ≤ Z.of_nat 2) as Hle by lia.
  assert (2 - Z.to_nat 1 = Z.to_nat 1)%nat as Hhalf by reflexivity.
  assert (normal_error [[[3]; [6]]; [[6]; [9]]] [[[5]; [8]]; [[8]; [11]]]
          = None) as Hok by (vm_compute; reflexivity).
  split_and!; [|exact Hcall|reflexivity|].
  - exact (proj1 (RNNModelFacts.produce_predict_output_std
                    (Sample.model 1 false) Sample.x1 None Sample.w0) Hpoint).
  - destruct (proj2 (RNNModelFacts.produce_predict_output_std
                       (Sample.model 1 true) Sample.x1 None Sample.w0)
                Hprob out 1 w1 _ 1 2%nat 2%nat 2%nat
                Hcall Hts Hsz Hd Hle Hhalf Hok)
      as (output_means & output_vars & w2 & sample & w3
          & Hmv & Hm & Hv & Hrun & Hs & Hloss).
    exists output_means, output_vars, w2, sample, w3.
    split_and!; [exact Hmv|exact Hm|exact Hv|exact Hrun|exact Hs|exact Hloss].
Defined.

Lemma compute_loss_spec_witness :
  _compute_loss (Sample.model 1 true) Sample.x1 Sample.x1 Sample.w0
  = GaussianNLLLoss "sum" (slice_last_to Sample.x1 1) Sample.x1
      (contiguous 1 (2, 2, 1)%nat)
      (Sample.world_of [(0%nat, [1; 2; 3; 4; 5; 6; 7; 8]);
                        (1%nat, [3; 5; 7; 9])]) ∧
  _compute_loss (Sample.model 1 false) Sample.x1 Sample.x1 Sample.w0
  = base_compute_loss (Sample.model 1 false) Sample.x1 Sample.x1 Sample.w0.
Proof.
  assert (is_probabilistic (Sample.model 1 false) = false) as Hpoint
    by reflexivity.
  assert (is_probabilistic (Sample.model 1 true) = true) as Hprob
    by reflexivity.
  assert (_means_and_vars_from_output (Sample.model 1 true) Sample.x1 Sample.w0
          = Ok ((slice_last_to Sample.x1 1, contiguous 1 (2, 2, 1)%nat),
                Sample.world_of [(0%nat, [1; 2; 3; 4; 5; 6; 7; 8]);
                                 (1%nat, [3; 5; 7; 9])]))
    as Hmv by (vm_compute; reflexivity).
  split.
  - exact (proj1 (RNNModelFacts.compute_loss_spec
                    (Sample.model 1 true) Sample.x1 Sample.x1 Sample.w0)
             Hprob _ _ _ Hmv).
  - exact (proj2 (RNNModelFacts.compute_loss_spec
                    (Sample.model 1 false) Sample.x1 Sample.x1 Sample.w0)
             Hpoint).
Defined.



Lemma init_base_kwargs_witness :
  ∃ passed : gmap string value,
    passed !! "output_chunk_length" = Some (VInt 1) ∧
    passed !! "input_chunk_length" = Some (VInt 12) ∧
    passed !! "batch_size" = Some (VInt 32) ∧
    ∀ self,
      __init__ (VStr "RNN") 12 25 0 24 false VNone
        (<["output_chunk_length" := VInt 7]> {[ "batch_size" := VInt 32 ]})
      = Ok self →
      base_init passed = Ok (base self).
Proof.
  destruct (RNNModelFacts.init_base_kwargs (H:=Sample.externals) (VStr "RNN") 12 25 0 24 false VNone
              (<["output_chunk_length" := VInt 7]> {[ "batch_size" := VInt 32 ]}))
    as (passed & Hout & Hin & Hrest & _ & Hbase).
  exists passed. split_and!; [exact Hout|exact Hin| |exact Hbase].
  rewrite (Hrest "batch_size") by discriminate.
  vm_compute. reflexivity.
Defined.

Lemma create_model_spec_witness :
  (_create_model (Sample.model 1 true) 3 4
   = Ok (VModule (RNNModuleObj (Sample.lstm 3 4 true))) ∧
   ∃ m, VModule (RNNModuleObj (Sample.lstm 3 4 true))
        = VModule (RNNModuleObj m) ∧
        RNNModule.name m = "LSTM" ∧
        rnn_input_size (RNNModule.rnn m) = 3 ∧
        RNNModule.target_size m = 4 ∧
        RNNModule.is_probabilistic m = true) ∧
  _create_model (Sample.wrapping 5) 3 4 = Ok (VModule (UserModule 5)).
Proof.
  assert (RNNModule.__init__ "LSTM" 3 3 4 0 true = Ok (Sample.lstm 3 4 true))
    as Hinit by (vm_compute; reflexivity).
  destruct (proj1 (RNNModelFacts.create_model_spec (Sample.model 1 true) 3 4)
              "LSTM" eq_refl (or_intror (or_introl eq_refl)))
    as [Hfields Hreturns].
  pose proof (Hreturns _ Hinit) as Hrun.
  split; [split; [exact Hrun|]|].
  - destruct (Hfields _ Hrun)
      as (m & Hm & Hname & _ & Hin & Hts & _ & _ & _ & Hp).
    exists m. split_and!; [exact Hm|exact Hname|exact Hin|exact Hts|exact Hp].
  - apply (proj1 (proj2 (RNNModelFacts.create_model_spec
                           (Sample.wrapping 5) 3 4))).
    reflexivity.
Defined.

(** A model that [__init__] built around [unittest.mock.ANY] holds none
    of the three strings, and [_create_model] does not return what it
    holds: the object passes the test of line 175 and is refused as a
    class name. *)
Lemma create_model_any :
  __init__ Sample.ANY 12 25 0 24 false VNone ∅
  = Ok (Sample.holding Sample.ANY) ∧
  (rnn_type_or_module (Sample.holding Sample.ANY)
   ∉ [VStr "RNN"; VStr "LSTM"; VStr "GRU"]) ∧
  _create_model (Sample.holding Sample.ANY) 1 1
  = Raise (TypeError "attribute name must be string") ∧
  _create_model (Sample.holding Sample.ANY) 1 1
  ≠ Ok (rnn_type_or_module (Sample.holding Sample.ANY)).
Proof.
  split_and!;
    [vm_compute; reflexivity| |vm_compute; reflexivity|discriminate].
  intros Hel.
  repeat (apply elem_of_cons in Hel as [Hel|Hel]; [discriminate Hel|]).
  by apply elem_of_nil in Hel.
Qed.

Lemma init_recurrent_module_witness :
  rnn_num_layers (RNNModule.rnn (Sample.lstm 4 2 true)) = 1 ∧
  rnn_batch_first (RNNModule.rnn (Sample.lstm 4 2 true)) = true ∧
  rnn_class (RNNModule.rnn (Sample.lstm 4 2 true)) = "LSTM".
Proof.
  assert (RNNModule.__init__ "LSTM" 4 3 2 0 true = Ok (Sample.lstm 4 2 true))
    as Hinit by (vm_compute; reflexivity).
  destruct (proj1 (RNNModuleFacts.init_recurrent_module (H:=Sample.externals)
                     "LSTM" 4 3 2 0 true) _ Hinit)
    as (Hlayers & Hfirst & Hclass & _).
  split_and!; [exact Hlayers|exact Hfirst|exact Hclass].
Defined.

Lemma forward_output_shape_witness :
  ∃ predictions hidden w',
    RNNModule.forward (Sample.lstm 4 2 true) Sample.x0 None Sample.w0
    = Ok ((predictions, hidden), w') ∧
    ∃ k, t_size predictions = (1, 2, k)%nat ∧ Z.of_nat k = 2 * 2.
Proof.
  assert (RNNModule.__init__ "LSTM" 4 3 2 0 true = Ok (Sample.lstm 4 2 true))
    as Hinit by (vm_compute; reflexivity).
  assert (t_size Sample.x0 = (1, 2, 4)%nat) as Hsz by reflexivity.
  assert (Z.of_nat 4 = 4) as Hn by reflexivity.
  assert (contents Sample.w0 Sample.x0
          = Some [[[1; 2; 3; 4]; [5; 6; 7; 8]]]) as Hx
    by (vm_compute; reflexivity).
  destruct (RNNModuleFacts.forward_output_shape (H:=Sample.externals)
              "LSTM" 4 3 2 0 true (Sample.lstm 4 2 true)
              Sample.x0 None Sample.w0 1 2 4 Hinit Hsz Hn)
    as (_ & Hshape & Hrun).
  destruct (Hrun _ Hx) as (predictions & hidden & w' & Hfw);
    [reflexivity|lia..|].
  exists predictions, hidden, w'. split; [exact Hfw|].
  exact (Hshape predictions hidden w' Hfw).
Defined.
End Runs.

(** * Further properties *)

(** ** Where torch operations put their results *)

Section Allocation.
Context `{Kernels}.
Implicit Types (w : world) (t x : tensor) (d : data3).

Lemma storages_kept_refl w : storages_kept w w.
Proof. by intros loc s. Qed.

Lemma storages_kept_trans w1 w2 w3 :
  storages_kept w1 w2 → storages_kept w2 w3 → storages_kept w1 w3.
Proof. unfold storages_kept. eauto. Qed.

Lemma alloc_fresh w sz d t w' :
  alloc sz d w = Ok (t, w') →
  storages w !! t_storage t = None ∧ t_offset t = 0%nat ∧
  t_stride t = contiguous_stride sz.
Proof.
  intros [= <- <-]; simpl. split_and!; [|done..].
  apply not_elem_of_dom, is_fresh.
Qed.

Lemma Softplus_fresh w t d :
  contents w t = Some d →
  ∃ v w', Softplus t w = Ok (v, w') ∧
          contents w' v = Some (map3 softplus d) ∧
          t_size v = t_size t ∧ storages_kept w w' ∧
          storages w !! t_storage v = None.
Proof.
  intros Hd. unfold Softplus. torch_unfold.
  rewrite (read_contents _ _ _ Hd).
  destruct (alloc (t_size t) (map3 softplus d) w) as [[v w']|] eqn:Ha; [|done].
  exists v, w'. split_and!; [done|..].
  - eapply contents_alloc; [|exact Ha].
    by apply has_shape_map3, (contents_has_shape w).
  - by apply alloc_tensor in Ha as (? & _ & _).
  - by eapply alloc_storages_kept.
  - by apply alloc_fresh in Ha as (? & _ & _).
Qed.

(** All that a returning call of a recurrent module tells. *)
Lemma recurrent_call_full (m : Recurrent) x h w out hid w' b l n :
  t_size x = (b, l, n) →
  recurrent_call m x h w = Ok ((out, hid), w') →
  ∃ d, contents w x = Some d ∧
       Z.of_nat n = rnn_input_size m ∧ 0 ≤ rnn_hidden_size m ∧
       recurrent_call_error m d h = None ∧
       hid = rnn_hidden m d h ∧
       alloc (b, l, Z.to_nat (rnn_hidden_size m))
         (tabulate3 (b, l, Z.to_nat (rnn_hidden_size m)) (rnn_output m d h)) w
       = Ok (out, w').
Proof.
  intros Hsz. unfold recurrent_call. torch_unfold. unfold read. rewrite Hsz.
  destruct (contents w x) as [d|]; [|done].
  case_bool_decide as Hc; [|done]. destruct Hc as [Hn Hh].
  destruct (recurrent_call_error m d h) eqn:He; [done|].
  destruct (alloc _ _ w) as [[t w1]|] eqn:Ha; [|done].
  intros [= <- <- <-]. exists d. by split_and!.
Qed.

Lemma linear_call_full (m : Linear) x w out w' b l n :
  t_size x = (b, l, n) →
  linear_call m x w = Ok (out, w') →
  ∃ d, contents w x = Some d ∧
       Z.of_nat n = in_features m ∧ 0 ≤ out_features m ∧
       alloc (b, l, Z.to_nat (out_features m))
         (map_rows (λ row, linear_output m row
                             <$> seq 0 (Z.to_nat (out_features m))) d) w
       = Ok (out, w').
Proof.
  intros Hsz. unfold linear_call. torch_unfold. unfold read. rewrite Hsz.
  destruct (contents w x) as [d|]; [|done].
  case_bool_decide as Hc; [|done]. destruct Hc as [Hn Ho].
  intros Ha. exists d. by split_and!.
Qed.

Lemma view_infer_full t (d0 d2 : Z) w v w' :
  view_infer t d0 d2 w = Ok (v, w') →
  w' = w ∧ 0 < d0 ∧ 0 < d2 ∧
  v = Tensor (t_storage t) (t_offset t)
        (Z.to_nat d0, (numel t / (Z.to_nat d0 * Z.to_nat d2))%nat, Z.to_nat d2)
        (contiguous_stride
           (Z.to_nat d0, (numel t / (Z.to_nat d0 * Z.to_nat d2))%nat,
            Z.to_nat d2)).
Proof.
  unfold view_infer. torch_unfold.
  case_bool_decide as Hneg; [done|].
  case_bool_decide as Hzero; [done|].
  case_bool_decide; simpl; [|done].
  destruct (is_contiguous t); simpl; [|done].
  intros [= <- <-]. split_and!; [done|nia..|done].
Qed.

Lemma linear_rows_shape (m : Linear) b l n o d :
  has_shape (b, l, n) d →
  has_shape (b, l, o) (map_rows (λ row, linear_output m row <$> seq 0 o) d).
Proof.
  apply has_shape_map_rows. intros r _. by rewrite length_fmap, length_seq.
Qed.
End Allocation.

(** ** More on _RNNModule.forward *)

Module RNNModuleMore.
Import RNNModule.
Section RNNModuleMore.
Context `{Kernels}.
Implicit Types (w : world) (x : tensor) (h : option hidden_state).

Lemma not_kept_fresh w w' loc :
  storages_kept w w' → storages w' !! loc = None → storages w !! loc = None.
Proof.
  intros Hk Hnone. destruct (storages w !! loc) as [s|] eqn:Hs; [|done].
  by rewrite (Hk _ _ Hs) in Hnone.
Qed.

(** Everything a returning [forward] of a constructed module tells. *)
Lemma forward_built (name : string) (input_size hidden_dim target_size : Z)
    (dropout : float) (probabilistic : bool) self x h w p hid w' (b l n : nat) :
  __init__ name input_size hidden_dim target_size dropout probabilistic
  = Ok self →
  t_size x = (b, l, n) →
  forward self x h w = Ok ((p, hid), w') →
  (0 < b)%nat ∧ 0 < target_size ∧ Z.of_nat n = input_size ∧ 0 ≤ hidden_dim ∧
  t_size p
  = (b, l, Z.to_nat (target_size + Z.b2z probabilistic * target_size)) ∧
  storages w !! t_storage p = None ∧
  storages_kept w w' ∧
  is_Some (contents w' p) ∧
  ∃ d, contents w x = Some d ∧
       recurrent_call_error (rnn self) d h = None ∧
       hid = rnn_hidden (rnn self) d h.
Proof.
  intros Hself Hsz. apply RNNModuleFacts.init_inv in Hself.
  set (features := target_size + Z.b2z probabilistic * target_size).
  assert (size0 x = Z.of_nat b) as Hb by (unfold size0; by rewrite Hsz).
  assert (RNNModule.target_size self
          + Z.b2z (is_probabilistic self) * RNNModule.target_size self
          = features) as Hfeat by (by subst self).
  assert (rnn_input_size (rnn self) = input_size ∧
          rnn_hidden_size (rnn self) = hidden_dim ∧
          in_features (V self) = hidden_dim ∧
          out_features (V self) = features) as (Hin & Hhid & HVin & HVout)
    by (by subst self).
  assert (∀ w1, match h with
                | None => recurrent_call (rnn self) x None
                | Some h0 => recurrent_call (rnn self) x (Some h0)
                end w1 = recurrent_call (rnn self) x h w1) as Hmatch
    by (by destruct h).
  clear Hself. unfold forward. torch_unfold. rewrite Hb, Hfeat, Hmatch.
  destruct (recurrent_call (rnn self) x h w) as [[[out hid0] w1]|] eqn:Hr;
    [|done].
  apply (recurrent_call_full _ _ _ _ _ _ _ b l n Hsz) in Hr
    as (d & Hd & Hn & Hh & Herr & -> & Hout).
  pose proof (alloc_tensor _ _ _ _ _ Hout) as (Hosz & _ & _).
  pose proof (alloc_storages_kept _ _ _ _ _ Hout) as Hk1.
  destruct (linear_call (V self) out w1) as [[p0 w2]|] eqn:Hl; [|done].
  apply (linear_call_full _ _ _ _ _ _ _ _ Hosz) in Hl
    as (d1 & Hd1 & _ & Ho & Hp0).
  rewrite HVout in Hp0, Ho.
  pose proof (alloc_tensor _ _ _ _ _ Hp0) as (Hpsz & _ & _).
  pose proof (alloc_storages_kept _ _ _ _ _ Hp0) as Hk2.
  pose proof (alloc_fresh _ _ _ _ _ Hp0) as (Hfresh & Hoff & Hstr).
  assert (contents w2 p0
          = Some (map_rows (λ row, linear_output (V self) row
                              <$> seq 0 (Z.to_nat features)) d1)) as Hc.
  { eapply contents_alloc; [|exact Hp0].
    eapply linear_rows_shape. rewrite <-Hosz. by eapply contents_has_shape. }
  destruct (view_infer p0 (Z.of_nat b) features w2) as [[v w3]|] eqn:Hv;
    [|done].
  apply view_infer_full in Hv as (-> & Hb0 & Hf & ->).
  intros [= <- <- <-].
  assert ((numel p0 / (Z.to_nat (Z.of_nat b) * Z.to_nat features))%nat = l)
    as Hmid.
  { unfold numel. rewrite Hpsz, Nat2Z.id.
    apply RNNModuleFacts.numel_div; lia. }
  rewrite Hmid, Nat2Z.id. simpl.
  assert (Tensor (t_storage p0) (t_offset p0) (b, l, Z.to_nat features)
            ((l * Z.to_nat features)%nat, Z.to_nat features, 1%nat) = p0)
    as Hsame.
  { destruct p0 as [loc off sz st]; simpl in *. by subst. }
  rewrite Hsame.
  split_and!; try done; try lia.
  - unfold features in Hf. destruct probabilistic; simpl in Hf; lia.
  - eapply not_kept_fresh; [exact Hk1|done].
  - by eapply storages_kept_trans.
  - by exists d.
Qed.

(** A constructed module answers every valid input of its width, when
    batch, hidden state and target are not empty and torch accepts the
    call of the recurrent module. *)
Lemma forward_runs (name : string) (input_size hidden_dim target_size : Z)
    (dropout : float) (probabilistic : bool) self x h w d (b l n : nat) :
  __init__ name input_size hidden_dim target_size dropout probabilistic
  = Ok self →
  t_size x = (b, l, n) →
  Z.of_nat n = input_size →
  contents w x = Some d →
  recurrent_call_error (rnn self) d h = None →
  (0 < b)%nat → 0 < hidden_dim → 0 < target_size →
  ∃ predictions hidden w', forward self x h w = Ok ((predictions, hidden), w').
Proof.
  intros Hself Hsz Hn Hd Herr Hb0 Hh Ht.
  apply RNNModuleFacts.init_inv in Hself.
  set (features := target_size + Z.b2z probabilistic * target_size).
  assert (0 < features) as Hf
    by (unfold features; destruct probabilistic; simpl; lia).
  assert (size0 x = Z.of_nat b) as Hb by (unfold size0; by rewrite Hsz).
  assert (RNNModule.target_size self
          + Z.b2z (is_probabilistic self) * RNNModule.target_size self
          = features) as Hfeat by (by subst self).
  assert (rnn_input_size (rnn self) = input_size ∧
          rnn_hidden_size (rnn self) = hidden_dim ∧
          in_features (V self) = hidden_dim ∧
          out_features (V self) = features) as (Hin & Hhid & HVin & HVout)
    by (by subst self).
  assert (∀ w1, match h with
                | None => recurrent_call (rnn self) x None
                | Some h0 => recurrent_call (rnn self) x (Some h0)
                end w1 = recurrent_call (rnn self) x h w1) as Hmatch
    by (by destruct h).
  clear Hself. unfold forward. torch_unfold. rewrite Hb, Hfeat, Hmatch.
  destruct (recurrent_call_run (rnn self) x h w d b l n Hsz Hd)
    as (out & w1 & Hr); [lia|lia|done|].
  rewrite Hr.
  apply (recurrent_call_inv _ _ _ _ _ _ _ b l n Hsz) in Hr
    as (_ & _ & Hout & Hc).
  destruct (linear_call_run (V self) out w1 _ _ _ Hout Hc)
    as (p & w2 & Hl); [lia|lia|].
  rewrite Hl.
  apply (linear_call_inv _ _ _ _ _ _ _ _ Hout) in Hl as (_ & _ & Hp & Hpc).
  rewrite HVout in Hp.
  destruct (view_infer_run p (Z.of_nat b) features w2) as [v ->];
    [lia|lia| |done|eauto].
  unfold numel. rewrite Hp, Nat2Z.id. apply RNNModuleFacts.numel_mod; lia.
Qed.

(** X1: [forward] raises, and returns nothing, on an empty batch, for a
    target size that is not positive and on an input whose last dimension
    is not [input_size]. *)
Theorem forward_refuses (name : string)
    (input_size hidden_dim target_size : Z) (dropout : float)
    (probabilistic : bool) self x h w (b l n : nat) :
  __init__ name input_size hidden_dim target_size dropout probabilistic
  = Ok self →
  t_size x = (b, l, n) →
  b = 0%nat ∨ target_size ≤ 0 ∨ Z.of_nat n ≠ input_size →
  raises (forward self x h w).
Proof.
  intros Hself Hsz Hbad.
  destruct (forward self x h w) as [[[p hid] w']|e] eqn:Hfw; [|by exists e].
  destruct (forward_built _ _ _ _ _ _ _ _ _ _ _ _ _ _ _ _ Hself Hsz Hfw)
    as (Hb & Ht & Hn & _).
  destruct Hbad as [->|[?|?]]; lia.
Qed.

(** X2: a returning [forward] leaves every storage as it was, so the
    input still denotes the same elements, and its predictions are valid
    memory in a storage that did not exist before the call: they never
    share memory with the input. *)
Theorem forward_output_is_fresh (name : string)
    (input_size hidden_dim target_size : Z) (dropout : float)
    (probabilistic : bool) self x h w p hid w' (b l n : nat) :
  __init__ name input_size hidden_dim target_size dropout probabilistic
  = Ok self →
  t_size x = (b, l, n) →
  forward self x h w = Ok ((p, hid), w') →
  storages_kept w w' ∧
  contents w' x = contents w x ∧
  storages w !! t_storage p = None ∧
  t_storage p ≠ t_storage x ∧
  is_Some (contents w' p).
Proof.
  intros Hself Hsz Hfw.
  destruct (forward_built _ _ _ _ _ _ _ _ _ _ _ _ _ _ _ _ Hself Hsz Hfw)
    as (_ & _ & _ & _ & _ & Hfresh & Hk & Hp & d & Hd & _).
  split_and!; [done| |done| |done].
  - rewrite Hd. by eapply contents_kept.
  - intros Heq. rewrite Heq in Hfresh. unfold contents in Hd.
    by rewrite Hfresh in Hd.
Qed.
End RNNModuleMore.
End RNNModuleMore.

(** ** More on RNNModel *)

Module RNNModelMore.
Import RNNModel.
Section RNNModelMore.
Context `{Kernels} `{!Backend}.
Implicit Types (self : RNNModel) (w : world) (d : data3).

Lemma contents_storage w t d :
  contents w t = Some d → is_Some (storages w !! t_storage t).
Proof.
  unfold contents. destruct (storages w !! t_storage t); [eauto|done].
Qed.

(** [_means_and_vars_from_output] on a live output, with where its
    results are stored. *)
Lemma means_and_vars_full self w output d ts b l n :
  model_target_size self w = Ok (ts, w) →
  t_size output = (b, l, n) →
  contents w output = Some d →
  ∃ vars w',
    _means_and_vars_from_output self output w
    = Ok ((slice_last_to output ts, vars), w') ∧
    contents w' (slice_last_to output ts)
    = Some (map_rows (take (slice_bound n ts)) d) ∧
    contents w' vars
    = Some (map3 softplus (map_rows (drop (slice_bound n ts)) d)) ∧
    t_size vars = (b, l, (n - slice_bound n ts)%nat) ∧
    storages_kept w w' ∧
    storages w !! t_storage vars = None ∧
    model_target_size self w' = Ok (ts, w').
Proof.
  intros Hts Hsz Hd.
  apply RNNModelFacts.model_target_size_pure in Hts as [_ Hts].
  pose proof (contents_slice_last_from w output d ts b l n Hsz Hd) as Hfrom.
  destruct (Softplus_fresh _ _ _ Hfrom)
    as (vars & w' & Hrun & Hv & Hvs & Hk & Hfresh).
  exists vars, w'. split_and!; [| |done| |done|done|done].
  - unfold _means_and_vars_from_output. torch_unfold.
    by rewrite !Hts, Hrun.
  - eapply contents_kept; [exact Hk|].
    exact (contents_slice_last_to w output d ts b l n Hsz Hd).
  - rewrite Hvs. unfold slice_last_from. rewrite Hsz.
    by destruct (t_stride output) as [[? ?] ?].
Qed.

Lemma map_rows_ext (f g : list float → list float) b l n d :
  has_shape (b, l, n) d →
  (∀ r, length r = n → f r = g r) →
  map_rows f d = map_rows g d.
Proof.
  intros [_ Hd] Hfg. unfold map_rows.
  apply list_fmap_ext. intros i m Him.
  apply list_fmap_ext. intros j r Hjr. apply Hfg.
  destruct (Forall_lookup_1 _ _ _ _ Hd Him) as [_ Hm].
  apply (Forall_lookup_1 _ _ _ _ Hm Hjr).
Qed.

Lemma map_rows_id d : map_rows id d = d.
Proof.
  unfold map_rows. rewrite <-(list_fmap_id d) at 2.
  apply list_fmap_ext. intros i m _. apply list_fmap_id.
Qed.

Lemma map3_map_rows (f : float → float) (g : list float → list float) d :
  map3 f (map_rows g d) = map_rows (λ r, f <$> g r) d.
Proof.
  unfold map3, map_rows. rewrite <-list_fmap_compose.
  apply list_fmap_ext. intros i m _; simpl.
  by rewrite <-list_fmap_compose.
Qed.

(** X3: the means are a view into the output's own storage, the
    variances a copy in a storage of their own: whatever is later written
    into the output's storage shows through the means, and leaves the
    variances as they were. *)
Theorem means_alias_vars_copy self w output d (ts : Z) b l n :
  model_target_size self w = Ok (ts, w) →
  t_size output = (b, l, n) →
  contents w output = Some d →
  ∃ means vars w',
    _means_and_vars_from_output self output w = Ok ((means, vars), w') ∧
    t_storage means = t_storage output ∧
    storages w !! t_storage vars = None ∧
    ∀ s' : list float,
      let w'' := World (<[t_storage output := s']> (storages w')) (rng w') in
      contents w'' vars = contents w' vars ∧
      ∀ d', contents w'' output = Some d' →
            contents w'' means = Some (map_rows (take (slice_bound n ts)) d').
Proof.
  intros Hts Hsz Hd.
  destruct (means_and_vars_full self w output d ts b l n Hts Hsz Hd)
    as (vars & w' & Hrun & _ & Hv & _ & _ & Hfresh & _).
  exists (slice_last_to output ts), vars, w'. split_and!; [done| |done|].
  { unfold slice_last_to. by rewrite Hsz. }
  intros s' w''. split.
  - assert (t_storage vars ≠ t_storage output) as Hne.
    { intros Heq. rewrite Heq in Hfresh.
      destruct (contents_storage _ _ _ Hd) as [? Hs]. by rewrite Hs in Hfresh. }
    unfold contents, w''; simpl. by rewrite lookup_insert_ne.
  - intros d' Hd'. exact (contents_slice_last_to w'' output d' ts b l n Hsz Hd').
Qed.

(** X4: a [target_size] that is not smaller than the last dimension
    leaves nothing for the variances: the means are the whole output and
    the variances have no components. *)
Theorem means_and_vars_oversized self w output d (ts : Z) b l n :
  model_target_size self w = Ok (ts, w) →
  t_size output = (b, l, n) →
  contents w output = Some d →
  Z.of_nat n ≤ ts →
  ∃ means vars w',
    _means_and_vars_from_output self output w = Ok ((means, vars), w') ∧
    contents w' means = Some d ∧
    t_size vars = (b, l, 0%nat) ∧
    contents w' vars = Some (map_rows (λ _, []) d).
Proof.
  intros Hts Hsz Hd Hle.
  destruct (means_and_vars_full self w output d ts b l n Hts Hsz Hd)
    as (vars & w' & Hrun & Hm & Hv & Hvs & _).
  assert (slice_bound n ts = n) as Hc
    by (unfold slice_bound; case_bool_decide; lia).
  rewrite Hc in Hm, Hv, Hvs.
  pose proof (contents_has_shape _ _ _ Hd) as Hshape. rewrite Hsz in Hshape.
  exists (slice_last_to output ts), vars, w'. split_and!; [done|..].
  - rewrite Hm. f_equal. rewrite <-(map_rows_id d) at 2.
    apply (map_rows_ext _ _ b l n); [done|]. intros r <-. apply firstn_all.
  - rewrite Hvs. by rewrite Nat.sub_diag.
  - rewrite Hv, map3_map_rows. f_equal.
    apply (map_rows_ext _ _ b l n); [done|]. intros r <-.
    by rewrite drop_all.
Qed.

(** X5: a negative [target_size] counts from the end, as Python slices
    do: the means are all components but the last [-target_size], and
    the variances are Softplus of those last ones. *)
Theorem means_and_vars_negative self w output d (ts : Z) b l n :
  model_target_size self w = Ok (ts, w) →
  t_size output = (b, l, n) →
  contents w output = Some d →
  - Z.of_nat n ≤ ts < 0 →
  ∃ means vars w',
    _means_and_vars_from_output self output w = Ok ((means, vars), w') ∧
    contents w' means = Some (map_rows (take (n - Z.to_nat (- ts))) d) ∧
    contents w' vars
    = Some (map3 softplus (map_rows (drop (n - Z.to_nat (- ts))) d)) ∧
    t_size means = (b, l, (n - Z.to_nat (- ts))%nat) ∧
    t_size vars = (b, l, Z.to_nat (- ts)).
Proof.
  intros Hts Hsz Hd Hneg.
  destruct (means_and_vars_full self w output d ts b l n Hts Hsz Hd)
    as (vars & w' & Hrun & Hm & Hv & Hvs & _).
  assert (slice_bound n ts = (n - Z.to_nat (- ts))%nat) as Hc
    by (unfold slice_bound; case_bool_decide; lia).
  rewrite Hc in Hm, Hv, Hvs.
  exists (slice_last_to output ts), vars, w'. split_and!; [done..| |].
  - unfold slice_last_to. rewrite Hsz; simpl. by rewrite Hc.
  - rewrite Hvs. do 2 f_equal. lia.
Qed.

(** X6: calling [_means_and_vars_from_output] again on the same output
    gives the same means and variances with the same elements, in a new
    storage, and does not disturb the variances of the first call. *)
Theorem means_and_vars_repeatable self w output d (ts : Z) b l n :
  model_target_size self w = Ok (ts, w) →
  t_size output = (b, l, n) →
  contents w output = Some d →
  ∃ means vars1 w1 vars2 w2,
    _means_and_vars_from_output self output w = Ok ((means, vars1), w1) ∧
    _means_and_vars_from_output self output w1 = Ok ((means, vars2), w2) ∧
    contents w2 means = contents w1 means ∧
    contents w2 vars2 = contents w1 vars1 ∧
    contents w2 vars1 = contents w1 vars1 ∧
    t_storage vars2 ≠ t_storage vars1.
Proof.
  intros Hts Hsz Hd.
  destruct (means_and_vars_full self w output d ts b l n Hts Hsz Hd)
    as (vars1 & w1 & Hrun1 & Hm1 & Hv1 & _ & Hk1 & _ & Hts1).
  pose proof (contents_kept _ _ _ _ Hk1 Hd) as Hd1.
  destruct (means_and_vars_full self w1 output d ts b l n Hts1 Hsz Hd1)
    as (vars2 & w2 & Hrun2 & Hm2 & Hv2 & _ & Hk2 & Hfresh2 & _).
  exists (slice_last_to output ts), vars1, w1, vars2, w2.
  split_and!; [done|done|by rewrite Hm1, Hm2|by rewrite Hv1, Hv2| |].
  - rewrite Hv1. by eapply contents_kept.
  - intros Heq. rewrite Heq in Hfresh2.
    destruct (contents_storage _ _ _ Hv1) as [? Hs]. by rewrite Hs in Hfresh2.
Qed.

(** X7: a probabilistic model around a user's module that has no
    [target_size] attribute cannot compute its loss, and cannot predict
    once the module has answered: both raise [AttributeError]. *)
Theorem user_module_needs_target_size self (u : user_module) :
  base_model (base self) = Some (UserModule u) →
  user_target_size u = None →
  is_probabilistic self = true →
  (∀ output target w,
     ∃ msg, _compute_loss self output target w = Raise (AttributeError msg)) ∧
  (∀ input h w output hidden w1,
     user_forward u input h w = Ok ((output, hidden), w1) →
     ∃ msg, _produce_predict_output self input h w
            = Raise (AttributeError msg)).
Proof.
  intros Hm Hu Hp.
  assert (∀ output w, ∃ msg, _means_and_vars_from_output self output w
                             = Raise (AttributeError msg)) as Hmv.
  { intros output w. unfold _means_and_vars_from_output, model_target_size.
    torch_unfold. rewrite Hm, Hu. eauto. }
  split.
  - intros output target w. unfold _compute_loss. rewrite Hp. torch_unfold.
    destruct (Hmv output w) as [msg ->]. eauto.
  - intros input h w output hidden w1 Hfw.
    unfold _produce_predict_output, model_call, module_call.
    rewrite Hp, Hm. torch_unfold. rewrite Hfw.
    destruct (Hmv output w1) as [msg ->]. eauto.
Qed.



(** X9: the module [_create_model] builds for [(input_dim, output_dim)]
    answers only inputs whose last dimension is [input_dim], and its
    predictions then have [output_dim] features, twice as many for a
    probabilistic model. *)
Theorem created_module_shapes self (input_dim output_dim : Z) (s : string) v :
  rnn_type_or_module self = VStr s →
  _create_model self input_dim output_dim = Ok v →
  s = "RNN" ∨ s = "LSTM" ∨ s = "GRU" →
  ∃ m, v = VModule (RNNModuleObj m) ∧
       ∀ x h w p hid w' (b l n : nat),
         t_size x = (b, l, n) →
         RNNModule.forward m x h w = Ok ((p, hid), w') →
         Z.of_nat n = input_dim ∧ 0 < output_dim ∧
         ∃ k, t_size p = (b, l, k) ∧
              Z.of_nat k = if is_probabilistic self then 2 * output_dim
                           else output_dim.
Proof.
  intros Hs Hv Hname. unfold _create_model in Hv. rewrite Hs in Hv.
  rewrite (RNNModelFacts.py_in_name s Hname) in Hv.
  unfold mbind, result_bind, mret, result_ret in Hv.
  simpl in Hv.
  destruct (RNNModule.__init__ s _ _ _ _ _) as [m|] eqn:Hm; [|done].
  injection Hv as <-. exists m. split; [done|].
  intros x h w p hid w' b l n Hsz Hfw.
  destruct (RNNModuleMore.forward_built _ _ _ _ _ _ _ _ _ _ _ _ _ _ _ _
              Hm Hsz Hfw) as (_ & Ho & Hn & _ & Hp & _).
  split_and!; [done..|].
  eexists. split; [exact Hp|].
  rewrite RNNModuleFacts.double_features.
  destruct (is_probabilistic self); lia.
Qed.

(** What the call of a probabilistic [_RNNModule] returns splits evenly:
    means and variances both have [target_size] features. *)
Lemma split_after_call (name : string)
    (input_size hidden_dim target_size : Z) (dropout : float) m self
    input h w output hidden w1 (b l n : nat) :
  RNNModule.__init__ name input_size hidden_dim target_size dropout true
  = Ok m →
  base_model (base self) = Some (RNNModuleObj m) →
  t_size input = (b, l, n) →
  model_call self input h w = Ok ((output, hidden), w1) →
  ∃ means vars w2,
    _means_and_vars_from_output self output w1 = Ok ((means, vars), w2) ∧
    t_size means = (b, l, Z.to_nat target_size) ∧
    t_size vars = (b, l, Z.to_nat target_size) ∧
    is_Some (contents w2 means) ∧ is_Some (contents w2 vars).
Proof.
  intros Hm Hbase Hsz Hcall.
  unfold model_call, module_call in Hcall. rewrite Hbase in Hcall.
  destruct (RNNModuleMore.forward_built _ _ _ _ _ _ _ _ _ _ _ _ _ _ _ _
              Hm Hsz Hcall) as (_ & Ht & _ & _ & Hout & _ & _ & [d Hd] & _).
  assert (model_target_size self w1 = Ok (target_size, w1)) as Hts.
  { unfold model_target_size. rewrite Hbase.
    apply RNNModuleFacts.init_inv in Hm. by subst m. }
  set (N := Z.to_nat (target_size + Z.b2z true * target_size)) in *.
  destruct (means_and_vars_full self w1 output d target_size _ _ _ Hts Hout Hd)
    as (vars & w2 & Hrun & Hmc & Hvc & Hvs & _).
  assert (slice_bound N target_size = Z.to_nat target_size) as Hc
    by (apply slice_bound_nonneg; subst N; simpl; lia).
  exists (slice_last_to output target_size), vars, w2.
  split_and!; [done| | |eauto|eauto].
  - unfold slice_last_to. rewrite Hout, Hc. done.
  - rewrite Hvs, Hc. do 2 f_equal. subst N. simpl. lia.
Qed.

(** X10: around a constructed [_RNNModule], [_produce_train_output]
    returns exactly when the module's [forward] returns on the data
    with no hidden state, and what it returns is the first component of
    [forward]'s result: the module's whole output, all
    [2 * target_size] features of a probabilistic one, as valid memory,
    with the data left as it was. It raises whatever [forward] raises,
    and it does return on valid data of the module's width when batch,
    hidden state and target are not empty and torch accepts the call of
    the recurrent module. *)
Theorem produce_train_output_built (name : string)
    (input_size hidden_dim target_size : Z) (dropout : float)
    (probabilistic : bool) m self data w (b l n : nat) :
  RNNModule.__init__ name input_size hidden_dim target_size dropout
    probabilistic = Ok m →
  base_model (base self) = Some (RNNModuleObj m) →
  t_size data = (b, l, n) →
  (∀ out hid w',
     RNNModule.forward m data None w = Ok ((out, hid), w') →
     _produce_train_output self data w = Ok (out, w') ∧
     (∃ k, t_size out = (b, l, k) ∧
           Z.of_nat k = if probabilistic then 2 * target_size
                        else target_size) ∧
     is_Some (contents w' out) ∧
     contents w' data = contents w data) ∧
  (∀ out w',
     _produce_train_output self data w = Ok (out, w') →
     ∃ hid, RNNModule.forward m data None w = Ok ((out, hid), w')) ∧
  (∀ e, RNNModule.forward m data None w = Raise e →
        _produce_train_output self data w = Raise e) ∧
  (∀ d, contents w data = Some d →
        Z.of_nat n = input_size →
        recurrent_call_error (RNNModule.rnn m) d None = None →
        (0 < b)%nat → 0 < hidden_dim → 0 < target_size →
        ∃ out w', _produce_train_output self data w = Ok (out, w')).
Proof.
  intros Hm Hbase Hsz.
  unfold _produce_train_output, model_call, module_call. rewrite Hbase.
  torch_unfold. split_and!.
  - intros out hid w' Hfw. rewrite Hfw.
    destruct (RNNModuleMore.forward_built _ _ _ _ _ _ _ _ _ _ _ _ _ _ _ _
                Hm Hsz Hfw) as (_ & Ht & _ & _ & Hout & _ & Hk & Hp & d & Hd & _).
    split_and!; [done| |done|].
    + eexists. split; [exact Hout|].
      rewrite RNNModuleFacts.double_features. destruct probabilistic; lia.
    + rewrite Hd. by eapply contents_kept.
  - intros out w'.
    destruct (RNNModule.forward m data None w) as [[[p hid] w2]|]; [|done].
    intros [= <- <-]. eauto.
  - by intros e ->.
  - intros d Hd Hn Herr Hb Hh Ht.
    destruct (RNNModuleMore.forward_runs _ _ _ _ _ _ _ _ _ _ _ _ _ _
                Hm Hsz Hn Hd Herr Hb Hh Ht) as (p & hid & w' & ->).
    eauto.
Qed.

(** X11: a probabilistic model around a probabilistic [_RNNModule]
    predicts whenever the module answers and [torch.normal] draws: the
    splitting in between cannot fail, and it hands [torch.normal] means
    and variances of one shape, [target_size] features each. *)
Theorem predict_fails_only_outside (name : string)
    (input_size hidden_dim target_size : Z) (dropout : float) m self
    input h w output hidden w1 (b l n : nat) :
  RNNModule.__init__ name input_size hidden_dim target_size dropout true
  = Ok m →
  base_model (base self) = Some (RNNModuleObj m) →
  is_probabilistic self = true →
  t_size input = (b, l, n) →
  model_call self input h w = Ok ((output, hidden), w1) →
  ∃ means vars w2,
    t_size means = (b, l, Z.to_nat target_size) ∧
    t_size vars = (b, l, Z.to_nat target_size) ∧
    (∀ sample w3, torch_normal means vars w2 = Ok (sample, w3) →
                  _produce_predict_output self input h w
                  = Ok ((sample, hidden), w3)) ∧
    (∀ e, torch_normal means vars w2 = Raise e →
          _produce_predict_output self input h w = Raise e).
Proof.
  intros Hm Hbase Hp Hsz Hcall.
  destruct (split_after_call _ _ _ _ _ _ _ _ _ _ _ _ _ _ _ _
              Hm Hbase Hsz Hcall)
    as (means & vars & w2 & Hmv & Hms & Hvs & _).
  exists means, vars, w2. split_and!; [done..| |].
  - intros sample w3 Hn. unfold _produce_predict_output. rewrite Hp.
    torch_unfold. by rewrite Hcall, Hmv, Hn.
  - intros e Hn. unfold _produce_predict_output. rewrite Hp.
    torch_unfold. by rewrite Hcall, Hmv, Hn.
Qed.

(** X12: in a training step of a probabilistic model around a
    probabilistic [_RNNModule], the loss of what [_produce_train_output]
    returned is the Gaussian loss with reduction 'sum' of means and
    variances that both have [target_size] features: the split cannot
    fail on the training output. *)
Theorem train_output_then_loss (name : string)
    (input_size hidden_dim target_size : Z) (dropout : float) m self
    data target w out w1 (b l n : nat) :
  RNNModule.__init__ name input_size hidden_dim target_size dropout true
  = Ok m →
  base_model (base self) = Some (RNNModuleObj m) →
  is_probabilistic self = true →
  t_size data = (b, l, n) →
  _produce_train_output self data w = Ok (out, w1) →
  ∃ means vars w2,
    t_size means = (b, l, Z.to_nat target_size) ∧
    t_size vars = (b, l, Z.to_nat target_size) ∧
    _compute_loss self out target w1
    = GaussianNLLLoss "sum" means target vars w2.
Proof.
  intros Hm Hbase Hp Hsz Hout.
  assert (∃ hid, model_call self data None w = Ok ((out, hid), w1))
    as [hid Hcall].
  { revert Hout. unfold _produce_train_output. torch_unfold.
    destruct (model_call self data None w) as [[[p hid] w2]|]; [|done].
    intros [= <- <-]. eauto. }
  destruct (split_after_call _ _ _ _ _ _ _ _ _ _ _ _ _ _ _ _
              Hm Hbase Hsz Hcall)
    as (means & vars & w2 & Hmv & Hms & Hvs & _).
  exists means, vars, w2. split_and!; [done..|].
  unfold _compute_loss. rewrite Hp. torch_unfold. by rewrite Hmv.
Qed.
End RNNModelMore.
End RNNModelMore.

(** ** The further properties at work on the integer backend *)

Section MoreRuns.
Import RNNModel.
#[local] Existing Instance Sample.externals.
#[local] Existing Instance Sample.kernels.
#[local] Existing Instance Sample.backend.

Lemma forward_refuses_witness :
  raises (RNNModule.forward (Sample.lstm 4 2 true)
            (contiguous 0 (0, 2, 4)%nat) None Sample.w0).
Proof.
  assert (RNNModule.__init__ "LSTM" 4 3 2 0 true = Ok (Sample.lstm 4 2 true))
    as Hinit by (vm_compute; reflexivity).
  assert (t_size (contiguous 0 (0, 2, 4)%nat) = (0, 2, 4)%nat) as Hsz
    by reflexivity.
  exact (RNNModuleMore.forward_refuses (H:=Sample.externals)
           "LSTM" 4 3 2 0 true (Sample.lstm 4 2 true)
           (contiguous 0 (0, 2, 4)%nat) None Sample.w0 0 2 4
           Hinit Hsz (or_introl eq_refl)).
Defined.

Lemma forward_output_is_fresh_witness :
  let w' := Sample.world_of [(0%nat, [1; 2; 3; 4; 5; 6; 7; 8]);
                             (1%nat, [0; 1; 2; 1; 2; 3]);
                             (2%nat, [3; 4; 5; 6; 6; 7; 8; 9])] in
  storages_kept Sample.w0 w' ∧
  contents w' Sample.x0 = contents Sample.w0 Sample.x0 ∧
  storages Sample.w0 !! 2%nat = None ∧
  2%nat ≠ 0%nat ∧
  is_Some (contents w' (contiguous 2 (1, 2, 4)%nat)).
Proof.
  assert (RNNModule.__init__ "LSTM" 4 3 2 0 true = Ok (Sample.lstm 4 2 true))
    as Hinit by (vm_compute; reflexivity).
  assert (t_size Sample.x0 = (1, 2, 4)%nat) as Hsz by reflexivity.
  assert (RNNModule.forward (Sample.lstm 4 2 true) Sample.x0 None Sample.w0
          = Ok ((contiguous 2 (1, 2, 4)%nat, 1),
                Sample.world_of [(0%nat, [1; 2; 3; 4; 5; 6; 7; 8]);
                                 (1%nat, [0; 1; 2; 1; 2; 3]);
                                 (2%nat, [3; 4; 5; 6; 6; 7; 8; 9])]))
    as Hfw by (vm_compute; reflexivity).
  exact (RNNModuleMore.forward_output_is_fresh (H:=Sample.externals)
           "LSTM" 4 3 2 0 true _ _ _ _ _ _ _ 1 2 4 Hinit Hsz Hfw).
Defined.

Lemma means_alias_vars_copy_witness :
  ∃ means vars w',
    _means_and_vars_from_output (Sample.model 1 true) Sample.x0 Sample.w0
    = Ok ((means, vars), w') ∧
    t_storage means = t_storage Sample.x0 ∧
    storages Sample.w0 !! t_storage vars = None ∧
    ∀ s' : list Z,
      let w'' := World (<[t_storage Sample.x0 := s']> (storages w')) (rng w') in
      contents w'' vars = contents w' vars ∧
      ∀ d', contents w'' Sample.x0 = Some d' →
            contents w'' means = Some (map_rows (take 1) d').
Proof.
  assert (model_target_size (Sample.model 1 true) Sample.w0
          = Ok (1, Sample.w0)) as Hts by reflexivity.
  assert (t_size Sample.x0 = (1, 2, 4)%nat) as Hsz by reflexivity.
  assert (contents Sample.w0 Sample.x0
          = Some [[[1; 2; 3; 4]; [5; 6; 7; 8]]]) as Hd
    by (vm_compute; reflexivity).
  exact (RNNModelMore.means_alias_vars_copy
           (Sample.model 1 true) Sample.w0 Sample.x0
           [[[1; 2; 3; 4]; [5; 6; 7; 8]]] 1 1 2 4 Hts Hsz Hd).
Defined.

Lemma means_and_vars_oversized_witness :
  ∃ means vars w',
    _means_and_vars_from_output (Sample.model 9 true) Sample.x0 Sample.w0
    = Ok ((means, vars), w') ∧
    contents w' means = Some [[[1; 2; 3; 4]; [5; 6; 7; 8]]] ∧
    t_size vars = (1, 2, 0)%nat ∧
    contents w' vars = Some [[[]; []]].
Proof.
  assert (model_target_size (Sample.model 9 true) Sample.w0
          = Ok (9, Sample.w0)) as Hts by reflexivity.
  assert (t_size Sample.x0 = (1, 2, 4)%nat) as Hsz by reflexivity.
  assert (contents Sample.w0 Sample.x0
          = Some [[[1; 2; 3; 4]; [5; 6; 7; 8]]]) as Hd
    by (vm_compute; reflexivity).
  assert (Z.of_nat 4 ≤ 9) as Hle by lia.
  exact (RNNModelMore.means_and_vars_oversized
           (Sample.model 9 true) Sample.w0 Sample.x0
           [[[1; 2; 3; 4]; [5; 6; 7; 8]]] 9 1 2 4 Hts Hsz Hd Hle).
Defined.

Lemma means_and_vars_repeatable_witness :
  ∃ means vars1 w1 vars2 w2,
    _means_and_vars_from_output (Sample.model 1 true) Sample.x0 Sample.w0
    = Ok ((means, vars1), w1) ∧
    _means_and_vars_from_output (Sample.model 1 true) Sample.x0 w1
    = Ok ((means, vars2), w2) ∧
    contents w2 means = contents w1 means ∧
    contents w2 vars2 = contents w1 vars1 ∧
    contents w2 vars1 = contents w1 vars1 ∧
    t_storage vars2 ≠ t_storage vars1.
Proof.
  assert (model_target_size (Sample.model 1 true) Sample.w0
          = Ok (1, Sample.w0)) as Hts by reflexivity.
  assert (t_size Sample.x0 = (1, 2, 4)%nat) as Hsz by reflexivity.
  assert (contents Sample.w0 Sample.x0
          = Some [[[1; 2; 3; 4]; [5; 6; 7; 8]]]) as Hd
    by (vm_compute; reflexivity).
  exact (RNNModelMore.means_and_vars_repeatable
           (Sample.model 1 true) Sample.w0 Sample.x0
           [[[1; 2; 3; 4]; [5; 6; 7; 8]]] 1 1 2 4 Hts Hsz Hd).
Defined.


Lemma created_module_shapes_witness :
  ∃ m, VModule (RNNModuleObj (Sample.lstm 3 4 true))
       = VModule (RNNModuleObj m) ∧
       ∀ x h w p hid w' (b l n : nat),
         t_size x = (b, l, n) →
         RNNModule.forward m x h w = Ok ((p, hid), w') →
         Z.of_nat n = 3 ∧ 0 < 4 ∧
         ∃ k, t_size p = (b, l, k) ∧ Z.of_nat k = 2 * 4.
Proof.
  assert (rnn_type_or_module (Sample.model 1 true) = VStr "LSTM") as Hs
    by reflexivity.
  assert (_create_model (Sample.model 1 true) 3 4
          = Ok (VModule (RNNModuleObj (Sample.lstm 3 4 true)))) as Hv
    by (vm_compute; reflexivity).
  exact (RNNModelMore.created_module_shapes (H:=Sample.externals)
           (Sample.model 1 true) 3 4 "LSTM" _ Hs Hv
           (or_intror (or_introl eq_refl))).
Defined.

Lemma produce_train_output_built_witness :
  let out := contiguous 2 (2, 2, 2)%nat in
  let w1 := Sample.world_of
              [(0%nat, [1; 2; 3; 4; 5; 6; 7; 8]);
               (1%nat, [0; 1; 2; 1; 2; 3; 1; 2; 3; 2; 3; 4]);
               (2%nat, [3; 4; 6; 7; 6; 7; 9; 10])] in
  RNNModule.forward (Sample.lstm 2 1 true) Sample.x1 None Sample.w0
  = Ok ((out, 1), w1) ∧
  _produce_train_output (Sample.model 1 true) Sample.x1 Sample.w0
  = Ok (out, w1) ∧
  (∃ k, t_size out = (2, 2, k)%nat ∧ Z.of_nat k = 2 * 1) ∧
  is_Some (contents w1 out) ∧
  contents w1 Sample.x1 = contents Sample.w0 Sample.x1.
Proof.
  intros out w1.
  assert (RNNModule.__init__ "LSTM" 2 3 1 0 true = Ok (Sample.lstm 2 1 true))
    as Hinit by (vm_compute; reflexivity).
  assert (base_model (base (Sample.model 1 true))
          = Some (RNNModuleObj (Sample.lstm 2 1 true))) as Hbase
    by (vm_compute; reflexivity).
  assert (t_size Sample.x1 = (2, 2, 2)%nat) as Hsz by reflexivity.
  assert (RNNModule.forward (Sample.lstm 2 1 true) Sample.x1 None Sample.w0
          = Ok ((out, 1), w1)) as Hfw by (vm_compute; reflexivity).
  split; [exact Hfw|].
  exact (proj1 (RNNModelMore.produce_train_output_built (H:=Sample.externals)
                  "LSTM" 2 3 1 0 true _ (Sample.model 1 true) Sample.x1
                  Sample.w0 2 2 2 Hinit Hbase Hsz)
           out 1 w1 Hfw).
Defined.

Lemma predict_fails_only_outside_witness :
  let w1 := Sample.world_of
              [(0%nat, [1; 2; 3; 4; 5; 6; 7; 8]);
               (1%nat, [0; 1; 2; 1; 2; 3; 1; 2; 3; 2; 3; 4]);
               (2%nat, [3; 4; 6; 7; 6; 7; 9; 10])] in
  ∃ means vars w2,
    t_size means = (2, 2, 1)%nat ∧
    t_size vars = (2, 2, 1)%nat ∧
    (∀ sample w3, torch_normal means vars w2 = Ok (sample, w3) →
                  _produce_predict_output (Sample.model 1 true) Sample.x1
                    None Sample.w0
                  = Ok ((sample, 1), w3)) ∧
    (∀ e, torch_normal means vars w2 = Raise e →
          _produce_predict_output (Sample.model 1 true) Sample.x1
            None Sample.w0 = Raise e).
Proof.
  assert (RNNModule.__init__ "LSTM" 2 3 1 0 true = Ok (Sample.lstm 2 1 true))
    as Hinit by (vm_compute; reflexivity).
  assert (base_model (base (Sample.model 1 true))
          = Some (RNNModuleObj (Sample.lstm 2 1 true))) as Hbase
    by (vm_compute; reflexivity).
  assert (is_probabilistic (Sample.model 1 true) = true) as Hp by reflexivity.
  assert (t_size Sample.x1 = (2, 2, 2)%nat) as Hsz by reflexivity.
  assert (model_call (Sample.model 1 true) Sample.x1 None Sample.w0
          = Ok ((contiguous 2 (2, 2, 2)%nat, 1),
                Sample.world_of
                  [(0%nat, [1; 2; 3; 4; 5; 6; 7; 8]);
                   (1%nat, [0; 1; 2; 1; 2; 3; 1; 2; 3; 2; 3; 4]);
                   (2%nat, [3; 4; 6; 7; 6; 7; 9; 10])])) as Hcall
    by (vm_compute; reflexivity).
  exact (RNNModelMore.predict_fails_only_outside (H:=Sample.externals)
           "LSTM" 2 3 1 0 _ (Sample.model 1 true) Sample.x1 None Sample.w0
           _ _ _ 2 2 2 Hinit Hbase Hp Hsz Hcall).
Defined.

Lemma train_output_then_loss_witness :
  let out := contiguous 2 (2, 2, 2)%nat in
  let w1 := Sample.world_of
              [(0%nat, [1; 2; 3; 4; 5; 6; 7; 8]);
               (1%nat, [0; 1; 2; 1; 2; 3; 1; 2; 3; 2; 3; 4]);
               (2%nat, [3; 4; 6; 7; 6; 7; 9; 10])] in
  ∃ means vars w2,
    t_size means = (2, 2, 1)%nat ∧
    t_size vars = (2, 2, 1)%nat ∧
    _compute_loss (Sample.model 1 true) out Sample.x1 w1
    = GaussianNLLLoss "sum" means Sample.x1 vars w2.
Proof.
  assert (RNNModule.__init__ "LSTM" 2 3 1 0 true = Ok (Sample.lstm 2 1 true))
    as Hinit by (vm_compute; reflexivity).
  assert (base_model (base (Sample.model 1 true))
          = Some (RNNModuleObj (Sample.lstm 2 1 true))) as Hbase
    by (vm_compute; reflexivity).
  assert (is_probabilistic (Sample.model 1 true) = true) as Hp by reflexivity.
  assert (t_size Sample.x1 = (2, 2, 2)%nat) as Hsz by reflexivity.
  assert (_produce_train_output (Sample.model 1 true) Sample.x1 Sample.w0
          = Ok (contiguous 2 (2, 2, 2)%nat,
                Sample.world_of
                  [(0%nat, [1; 2; 3; 4; 5; 6; 7; 8]);
                   (1%nat, [0; 1; 2; 1; 2; 3; 1; 2; 3; 2; 3; 4]);
                   (2%nat, [3; 4; 6; 7; 6; 7; 9; 10])])) as Hout
    by (vm_compute; reflexivity).
  exact (RNNModelMore.train_output_then_loss (H:=Sample.externals)
           "LSTM" 2 3 1 0 _ (Sample.model 1 true) Sample.x1 Sample.x1
           Sample.w0 _ _ 2 2 2 Hinit Hbase Hp Hsz Hout).
Defined.
End MoreRuns.

Section UserRuns.
Import RNNModel.
#[local] Existing Instance Sample.externals.
#[local] Existing Instance Sample.kernels.

Lemma means_and_vars_negative_witness :
  ∃ means vars w',
    _means_and_vars_from_output (H1 := SampleUser.with_target_size)
      (Sample.model (-1) true) Sample.x0 Sample.w0
    = Ok ((means, vars), w') ∧
    contents w' means = Some [[[1; 2; 3]; [5; 6; 7]]] ∧
    contents w' vars = Some [[[5]; [9]]] ∧
    t_size means = (1, 2, 3)%nat ∧
    t_size vars = (1, 2, 1)%nat.
Proof.
  assert (model_target_size (H1 := SampleUser.with_target_size)
            (Sample.model (-1) true) Sample.w0
          = Ok (-1, Sample.w0)) as Hts by reflexivity.
  assert (t_size Sample.x0 = (1, 2, 4)%nat) as Hsz by reflexivity.
  assert (contents Sample.w0 Sample.x0
          = Some [[[1; 2; 3; 4]; [5; 6; 7; 8]]]) as Hd
    by (vm_compute; reflexivity).
  assert (- Z.of_nat 4 ≤ -1 < 0) as Hneg by lia.
  exact (RNNModelMore.means_and_vars_negative
           (H1 := SampleUser.with_target_size)
           (Sample.model (-1) true) Sample.w0 Sample.x0
           [[[1; 2; 3; 4]; [5; 6; 7; 8]]] (-1) 1 2 4 Hts Hsz Hd Hneg).
Defined.

Lemma user_module_needs_target_size_witness :
  (∀ output target w,
     ∃ msg, _compute_loss (H1 := SampleUser.without_target_size)
              (Sample.model 1 true) output target w
            = Raise (AttributeError msg)) ∧
  (∀ input h w output hidden w1,
     user_forward (Backend := SampleUser.without_target_size) 1 input h w
     = Ok ((output, hidden), w1) →
     ∃ msg, _produce_predict_output (H1 := SampleUser.without_target_size)
              (Sample.model 1 true) input h w
            = Raise (AttributeError msg)).
Proof.
  assert (base_model (Backend := SampleUser.without_target_size)
            (base (Sample.model 1 true)) = Some (UserModule 1)) as Hbase
    by reflexivity.
  assert (user_target_size (Backend := SampleUser.without_target_size) 1
          = None) as Hu by reflexivity.
  assert (is_probabilistic (Sample.model 1 true) = true) as Hp by reflexivity.
  exact (RNNModelMore.user_module_needs_target_size
           (H1 := SampleUser.without_target_size)
           (Sample.model 1 true) 1 Hbase Hu Hp).
Defined.
End UserRuns.
